(** * The circuit breaker of pvlbzn/circuitbreaker

    A shallow embedding of the Go package [circuitbreaker]
    (type [CircuitBreaker], [NewCircuitBreaker], [Call] and the handlers
    [processClosedState], [processOpenState], [processHalfOpenState],
    [resetCircuit], [runWithTimeout]) and the properties of its state
    machine.

    Every method of the Go type mutates the receiver, so the methods are
    written in the state monad over a [World]: the breaker itself, and the
    log of the operations whose goroutine has been started. [Call] holds
    the mutex from its first to its last statement, so a call is one
    atomic step of the world.

    The Java class of the same repository, which implements the machine a
    second time with different choices, is embedded in [Module Java]. *)

From Stdlib Require Import ZArith String List Bool Lia.
From ExtLib Require Import Structures.Monad Structures.MonadState.
From ExtLib Require Import Data.Monads.StateMonad.
Import ListNotations.
Import MonadNotation.

Local Open Scope monad_scope.
Local Open Scope string_scope.
Local Open Scope Z_scope.

(** ** Go's [int] *)

(** The counters and thresholds are of Go's type [int]: 64 bits wide, two's
    complement, and [++] wraps around silently. *)
Module GoInt.

Definition minInt : Z := - 2 ^ 63.
Definition maxInt : Z := 2 ^ 63 - 1.

Definition inRange (z : Z) : Prop := minInt <= z <= maxInt.

Definition wrap (z : Z) : Z := (z - minInt) mod 2 ^ 64 + minInt.

(** [n++] *)
Definition incr (n : Z) : Z := wrap (n + 1).

End GoInt.

(** ** The part of package [time] the breaker uses *)

(** An instant is a number of nanoseconds on one time line, counted from
    the zero value of [time.Time]; a [Duration] is an [int64] number of
    nanoseconds. [Time.Sub] saturates at the ends of [int64], and
    [time.Since t] is [time.Now().Sub(t)]. *)
Module GoTime.

Definition Time : Type := Z.
Definition Duration : Type := Z.

Definition zeroTime : Time := 0.

Definition minDuration : Duration := - 2 ^ 63.
Definition maxDuration : Duration := 2 ^ 63 - 1.

Definition Nanosecond : Duration := 1.
Definition Millisecond : Duration := 1000000.
Definition Second : Duration := 1000000000.

Definition Sub (t u : Time) : Duration :=
  let d := t - u in
  if d <? minDuration then minDuration
  else if maxDuration <? d then maxDuration
  else d.

(** [time.Since(t)], where [now] is what the clock reads. *)
Definition Since (now t : Time) : Duration := Sub now t.

End GoTime.

Import GoTime.

(** The state monad of ExtLib, named before the breaker's field [state]
    hides the name. *)
Definition stateM : Type -> Type -> Type := StateMonad.state.

(** ** Data model *)

(** [type circuitBreakerState = string] *)
Definition circuitBreakerState : Type := string.

Definition closed : circuitBreakerState := "closed".
Definition open : circuitBreakerState := "open".
Definition halfOpen : circuitBreakerState := "half-open".

(** Go's [error]: [None] is [nil], [Some msg] an error whose [Error()] is
    [msg]. The breaker builds its own errors with [errors.New]. *)
Definition error : Type := option string.

Definition errTimeout : error := Some "request timed out".
Definition errOpen : error := Some "open state; request blocked".
Definition errUnknownState (s : circuitBreakerState) : error :=
  Some ("unknown state `" ++ s ++ "`").

(** [struct CircuitBreaker], without the mutex. *)
Record CircuitBreaker : Type := mkCircuitBreaker {
  state : circuitBreakerState;
  failureCount : Z;
  lastFailureTime : Time;
  successCount : Z;
  failureThreshold : Z;
  recoveryTime : Duration;
  halfOpenThreshold : Z;
  timeout : Duration
}.

(** Assignments to the fields that the methods write. *)
Definition set_state (s : circuitBreakerState) (cb : CircuitBreaker) :=
  mkCircuitBreaker s (failureCount cb) (lastFailureTime cb) (successCount cb)
    (failureThreshold cb) (recoveryTime cb) (halfOpenThreshold cb) (timeout cb).

Definition set_failureCount (n : Z) (cb : CircuitBreaker) :=
  mkCircuitBreaker (state cb) n (lastFailureTime cb) (successCount cb)
    (failureThreshold cb) (recoveryTime cb) (halfOpenThreshold cb) (timeout cb).

Definition set_lastFailureTime (t : Time) (cb : CircuitBreaker) :=
  mkCircuitBreaker (state cb) (failureCount cb) t (successCount cb)
    (failureThreshold cb) (recoveryTime cb) (halfOpenThreshold cb) (timeout cb).

Definition set_successCount (n : Z) (cb : CircuitBreaker) :=
  mkCircuitBreaker (state cb) (failureCount cb) (lastFailureTime cb) n
    (failureThreshold cb) (recoveryTime cb) (halfOpenThreshold cb) (timeout cb).

Definition set_halfOpenThreshold (n : Z) (cb : CircuitBreaker) :=
  mkCircuitBreaker (state cb) (failureCount cb) (lastFailureTime cb)
    (successCount cb) (failureThreshold cb) (recoveryTime cb) n (timeout cb).

(** [NewCircuitBreaker]: the fields it does not name take their zero
    value. *)
Definition NewCircuitBreaker (failureThreshold halfOpenThreshold : Z)
    (recoveryTime timeout : Duration) : CircuitBreaker :=
  {| state := closed;
     failureCount := 0;
     lastFailureTime := zeroTime;
     successCount := 0;
     failureThreshold := failureThreshold;
     recoveryTime := recoveryTime;
     halfOpenThreshold := halfOpenThreshold;
     timeout := timeout |}.

(** What the clock and the scheduler contribute to one [Call]: [now] is
    the reading of the clock at the one place where the call consults it
    ([time.Now] or [time.Since]; no path consults it twice), and
    [selectResult] says which case [select] takes when the result and the
    deadline are ready together. *)
Record Env : Type := mkEnv {
  now : Time;
  selectResult : bool
}.

Section Breaker.

(** The values an operation produces; Go's [any] also has [nil]. *)
Context {V : Type}.

Definition any : Type := option V.

(** [type operation = func() (any, error)], as what one run of the
    function does: it returns [(result, failure)] after [latency]. Both
    components may be non-nil. *)
Record operation : Type := mkOperation {
  latency : Duration;
  result : any;
  failure : error
}.

Record World : Type := mkWorld {
  breaker : CircuitBreaker;
  invoked : list operation
}.

Definition M : Type -> Type := stateM World.

Definition update (f : CircuitBreaker -> CircuitBreaker) : M unit :=
  w <- get ;; put (mkWorld (f (breaker w)) (invoked w)).

(** [go func() { res, err := fn(); resChan <- Message{res, err} }()] *)
Definition spawn (fn : operation) : M unit :=
  w <- get ;; put (mkWorld (breaker w) (fn :: invoked w)).

(** The [select] of [runWithTimeout]: the message of the goroutine
    against [ctx.Done()] of a context with deadline [t]. The goroutine and
    the context start together; the message is on [resChan] after
    [latency fn], the context is done after [t]. The case that is ready
    first is taken, and when both are ready at once [select] is free to
    take either. *)
Definition resultFirst (t : Duration) (fn : operation) (e : Env) : bool :=
  match latency fn ?= t with
  | Lt => true
  | Eq => selectResult e
  | Gt => false
  end.

Definition raceOutcome (t : Duration) (fn : operation) (e : Env)
  : any * error :=
  if resultFirst t fn e then (result fn, failure fn)
  else (None, errTimeout).

Definition runWithTimeout (fn : operation) (e : Env) : M (any * error) :=
  cb <- gets breaker ;;
  spawn fn ;;
  ret (raceOutcome (timeout cb) fn e).

Definition processClosedState (fn : operation) (e : Env)
  : M (any * error) :=
  r <- runWithTimeout fn e ;;
  match snd r with
  | Some _ =>
      update (fun cb => set_failureCount (GoInt.incr (failureCount cb)) cb) ;;
      update (set_lastFailureTime (now e)) ;;
      cb <- gets breaker ;;
      (if failureThreshold cb <=? failureCount cb
       then update (set_state open) else ret tt) ;;
      ret (None, snd r)
  | None => ret (fst r, None)
  end.

Definition resetCircuit : M unit :=
  update (set_failureCount 0) ;;
  update (set_state closed).

Definition processOpenState (e : Env) : M (any * error) :=
  cb <- gets breaker ;;
  if recoveryTime cb <? Since (now e) (lastFailureTime cb) then
    update (set_state halfOpen) ;;
    update (set_halfOpenThreshold 0) ;;
    update (set_failureCount 0) ;;
    ret (None, None)
  else ret (None, errOpen).

Definition processHalfOpenState (fn : operation) (e : Env)
  : M (any * error) :=
  r <- runWithTimeout fn e ;;
  match snd r with
  | Some _ =>
      update (set_state open) ;;
      update (set_lastFailureTime (now e)) ;;
      ret (None, snd r)
  | None =>
      update (fun cb => set_successCount (GoInt.incr (successCount cb)) cb) ;;
      cb <- gets breaker ;;
      (if halfOpenThreshold cb <=? successCount cb
       then resetCircuit else ret tt) ;;
      ret (fst r, None)
  end.

(** The breaker a failure in [closed] leaves behind
    ([processClosedState_fail] below). *)
Definition closedFailure (t : Time) (cb : CircuitBreaker) : CircuitBreaker :=
  let cb1 :=
    set_lastFailureTime t
      (set_failureCount (GoInt.incr (failureCount cb)) cb) in
  if failureThreshold cb <=? GoInt.incr (failureCount cb)
  then set_state open cb1 else cb1.

(** The breaker a success in [half-open] leaves behind
    ([processHalfOpenState_ok] below). *)
Definition halfOpenSuccess (cb : CircuitBreaker) : CircuitBreaker :=
  let cb1 := set_successCount (GoInt.incr (successCount cb)) cb in
  if halfOpenThreshold cb <=? GoInt.incr (successCount cb)
  then set_state closed (set_failureCount 0 cb1) else cb1.

(** The [switch cb.state] of [Call]. *)
Inductive branch : Type :=
| caseClosed
| caseOpen
| caseHalfOpen
| caseDefault.

Definition switch (s : circuitBreakerState) : branch :=
  if (s =? closed)%string then caseClosed
  else if (s =? open)%string then caseOpen
  else if (s =? halfOpen)%string then caseHalfOpen
  else caseDefault.

Definition Call (fn : operation) (e : Env) : M (any * error) :=
  cb <- gets breaker ;;
  match switch (state cb) with
  | caseClosed => processClosedState fn e
  | caseOpen => processOpenState e
  | caseHalfOpen => processHalfOpenState fn e
  | caseDefault => ret (None, errUnknownState (state cb))
  end.

(** A caller that makes one call after the other, as the loop of
    [main] and the tests do. *)
Fixpoint callAll (calls : list (operation * Env))
  : M (list (any * error)) :=
  match calls with
  | [] => ret []
  | (fn, e) :: rest =>
      r <- Call fn e ;;
      rs <- callAll rest ;;
      ret (r :: rs)
  end.

(** A breaker on which nothing has been called yet. *)
Definition boot (cb : CircuitBreaker) : World := mkWorld cb [].

(** Whether [runWithTimeout] hands an error to the handler. *)
Definition fails (t : Duration) (fn : operation) (e : Env) : bool :=
  match snd (raceOutcome t fn e) with
  | Some _ => true
  | None => false
  end.

Definition failures (t : Duration) (calls : list (operation * Env)) : Z :=
  Z.of_nat (List.length (filter (fun c => fails t (fst c) (snd c)) calls)).

Definition validState (s : circuitBreakerState) : Prop :=
  s = closed \/ s = open \/ s = halfOpen.

End Breaker.

Arguments operation : clear implicits.
Arguments World : clear implicits.
Arguments any : clear implicits.

(** ** The services and breakers of the tests *)

(** [makeService(20, 200, 100)] and [makeService(20, 200, 0)] of the test
    file, at their shortest latency; a service that outlasts a timeout of
    one second; one that returns a value together with its error. *)
Definition alwaysFailing : operation string :=
  mkOperation (20 * Millisecond) None (Some "service failed").

Definition neverFailing : operation string :=
  mkOperation (20 * Millisecond) (Some "OK") None.

Definition tooSlow : operation string :=
  mkOperation (3 * Second) (Some "OK") None.

Definition partialFailure : operation string :=
  mkOperation (20 * Millisecond) (Some "partial") (Some "service failed").

(** The clock of the first call of a scenario, and a call made [d] later. *)
Definition t0 : Time := 63900000000 * Second.

Definition after (d : Duration) : Env := mkEnv (t0 + d) true.

(** [NewCircuitBreaker(1, 1, 1*time.Second, 1*time.Second)] of
    [TestHalfOpenState] and [TestRecovery]. *)
Definition testBreaker : CircuitBreaker :=
  NewCircuitBreaker 1 1 Second Second.

(** [NewCircuitBreaker(2, 2, 2*time.Second, 2*time.Second)] of [main]. *)
Definition mainBreaker : CircuitBreaker :=
  NewCircuitBreaker 2 2 (2 * Second) (2 * Second).

(** The world a list of calls leaves behind. *)
Definition afterCalls {V : Type} (cb : CircuitBreaker)
    (calls : list (operation V * Env)) : World V :=
  snd (runState (callAll calls) (boot cb)).

(** [testBreaker] after its first, failing call: open. *)
Definition tripped : World string :=
  afterCalls testBreaker [(alwaysFailing, after 0)].

(** ... and after the waiting call of [TestHalfOpenState]: half-open. *)
Definition probing : World string :=
  afterCalls testBreaker
    [(alwaysFailing, after 0); (neverFailing, after (2 * Second))].

(** [mainBreaker] after two failing calls: open, with the threshold of
    two successes it was built with. *)
Definition mainTripped : World string :=
  afterCalls mainBreaker
    [(alwaysFailing, after 0); (alwaysFailing, after Second)].

(** [mainBreaker] after it has opened, recovered through one successful
    probe, and opened again. *)
Definition relapsed : World string :=
  afterCalls mainBreaker
    [(alwaysFailing, after 0); (alwaysFailing, after Second);
     (neverFailing, after (4 * Second)); (neverFailing, after (5 * Second));
     (alwaysFailing, after (6 * Second)); (alwaysFailing, after (7 * Second))].

(** A half-open breaker that asks for one success, written down field by
    field as the tests of the package may do. *)
Definition oneProbeLeft : World string :=
  boot (mkCircuitBreaker halfOpen 0 t0 0 1 Second 1 Second).

(** ** The Java variant: class [CircuitBreaker] of package
    [com.pavelbazin.circuitbreaker] *)

(** The same machine, written a second time: an [enum] for the state,
    [Optional] for the answer (no error value: every failure is an empty
    [Optional]), exceptions for the failures of the service, and times
    compared in whole seconds. [call] is [synchronized], so a call is one
    atomic step here too. What [log] prints is left out. *)
Module Java.

(** Java's [int]: 32 bits, [++] wraps around. *)
Definition minInt : Z := - 2 ^ 31.
Definition maxInt : Z := 2 ^ 31 - 1.

Definition wrap (z : Z) : Z := (z - minInt) mod 2 ^ 32 + minInt.

Definition incr (n : Z) : Z := wrap (n + 1).

(** [Instant] and [Duration], in nanoseconds; [Instant.EPOCH] is 0.
    [getSeconds] and [toSeconds] give the whole seconds, rounded down. *)
Definition Instant : Type := Z.

Definition EPOCH : Instant := 0.

Definition between (a b : Instant) : Duration := b - a.

Definition getSeconds (d : Duration) : Z := d / Second.

Definition toSeconds (d : Duration) : Z := d / Second.

Inductive State : Type :=
| CLOSED
| OPEN
| HALF_OPEN.

(** The fields of the class; the last four are [final]. *)
Record CircuitBreaker : Type := mkCircuitBreaker {
  state : State;
  failureCount : Z;
  successCount : Z;
  lastFailureTime : Instant;
  failureThreshold : Z;
  halfOpenThreshold : Z;
  recoveryTime : Duration;
  timeout : Duration
}.

Definition set_state (s : State) (cb : CircuitBreaker) :=
  mkCircuitBreaker s (failureCount cb) (successCount cb) (lastFailureTime cb)
    (failureThreshold cb) (halfOpenThreshold cb) (recoveryTime cb) (timeout cb).

Definition set_failureCount (n : Z) (cb : CircuitBreaker) :=
  mkCircuitBreaker (state cb) n (successCount cb) (lastFailureTime cb)
    (failureThreshold cb) (halfOpenThreshold cb) (recoveryTime cb) (timeout cb).

Definition set_successCount (n : Z) (cb : CircuitBreaker) :=
  mkCircuitBreaker (state cb) (failureCount cb) n (lastFailureTime cb)
    (failureThreshold cb) (halfOpenThreshold cb) (recoveryTime cb) (timeout cb).

Definition set_lastFailureTime (t : Instant) (cb : CircuitBreaker) :=
  mkCircuitBreaker (state cb) (failureCount cb) (successCount cb) t
    (failureThreshold cb) (halfOpenThreshold cb) (recoveryTime cb) (timeout cb).

(** The constructor, with the initialisers of the variable fields. *)
Definition new (failureThreshold halfOpenThreshold : Z)
    (recoveryTime timeout : Duration) : CircuitBreaker :=
  {| state := CLOSED;
     failureCount := 0;
     successCount := 0;
     lastFailureTime := EPOCH;
     failureThreshold := failureThreshold;
     halfOpenThreshold := halfOpenThreshold;
     recoveryTime := recoveryTime;
     timeout := timeout |}.

(** The exceptions [callWithTimeout] lets through to the handlers, which
    catch every [Exception] alike. *)
Inductive exception : Type :=
| TimeoutException
| ExecutionException.

Section Breaker.

(** The type [R] of the service's answers. *)
Context {R : Type}.

(** What [fn.apply(input)] does on one call: it returns a value, [None]
    for [null], or it throws. *)
Inductive answer : Type :=
| returns (r : option R)
| throws.

(** The task handed to the executor: its [Future] is done [latency] after
    [submit], the wait for a thread of the pool included. *)
Record task : Type := mkTask {
  latency : Duration;
  does : answer
}.

Record World : Type := mkWorld {
  breaker : CircuitBreaker;
  submitted : list task
}.

Definition M : Type -> Type := stateM World.

Definition update (f : CircuitBreaker -> CircuitBreaker) : M unit :=
  w <- get ;; put (mkWorld (f (breaker w)) (submitted w)).

(** [executor.submit(() -> Optional.of(fn.apply(input)))] *)
Definition submit (fn : task) : M unit :=
  w <- get ;; put (mkWorld (breaker w) (fn :: submitted w)).

(** [future.get(seconds, TimeUnit.SECONDS)] returns when the future is
    done within that many seconds; when it is done just as the wait ends,
    either may happen. *)
Definition doneInTime (seconds : Z) (fn : task) (e : Env) : bool :=
  match latency fn ?= seconds * Second with
  | Lt => true
  | Eq => selectResult e
  | Gt => false
  end.

(** What the future holds once done: [Optional.of] throws on [null], and
    whatever the task throws comes out of [get] as an
    [ExecutionException]. *)
Definition held (a : answer) : exception + R :=
  match a with
  | returns (Some r) => inr r
  | returns None => inl ExecutionException
  | throws => inl ExecutionException
  end.

(** [callWithTimeout]: the value inside the [Optional] it returns, or the
    exception it throws. The calling thread is taken not to be
    interrupted. *)
Definition callWithTimeout (fn : task) (e : Env) : M (exception + R) :=
  cb <- gets breaker ;;
  submit fn ;;
  ret (if doneInTime (toSeconds (timeout cb)) fn e then held (does fn)
       else inl TimeoutException).

Definition resetCircuit : M unit :=
  update (set_state CLOSED) ;;
  update (set_failureCount 0) ;;
  update (set_successCount 0) ;;
  update (set_lastFailureTime EPOCH).

Definition processClosedState (fn : task) (e : Env) : M (option R) :=
  r <- callWithTimeout fn e ;;
  match r with
  | inr v => ret (Some v)
  | inl _ =>
      update (fun cb => set_failureCount (incr (failureCount cb)) cb) ;;
      update (set_lastFailureTime (now e)) ;;
      cb <- gets breaker ;;
      (if failureThreshold cb <=? failureCount cb
       then update (set_state OPEN) else ret tt) ;;
      ret None
  end.

Definition processOpenState (e : Env) : M (option R) :=
  cb <- gets breaker ;;
  let diff := getSeconds (between (lastFailureTime cb) (now e)) in
  (if getSeconds (recoveryTime cb) <? diff then
     update (set_state HALF_OPEN) ;;
     update (set_failureCount 0)
   else ret tt) ;;
  ret None.

Definition processHalfOpenState (fn : task) (e : Env) : M (option R) :=
  r <- callWithTimeout fn e ;;
  match r with
  | inl _ =>
      update (fun cb => set_failureCount (incr (failureCount cb)) cb) ;;
      update (set_state OPEN) ;;
      update (set_lastFailureTime (now e)) ;;
      ret None
  | inr v =>
      update (fun cb => set_successCount (incr (successCount cb)) cb) ;;
      cb <- gets breaker ;;
      (if halfOpenThreshold cb <=? successCount cb
       then resetCircuit else ret tt) ;;
      ret (Some v)
  end.

Definition call (fn : task) (e : Env) : M (option R) :=
  cb <- gets breaker ;;
  match state cb with
  | CLOSED => processClosedState fn e
  | OPEN => processOpenState e
  | HALF_OPEN => processHalfOpenState fn e
  end.

(** The loop of [Main.main]: one call after the other. *)
Fixpoint callAll (calls : list (task * Env)) : M (list (option R)) :=
  match calls with
  | [] => ret []
  | (fn, e) :: rest =>
      r <- call fn e ;;
      rs <- callAll rest ;;
      ret (r :: rs)
  end.

Definition boot (cb : CircuitBreaker) : World := mkWorld cb [].

(** Whether [callWithTimeout] throws. *)
Definition throwing (cb : CircuitBreaker) (fn : task) (e : Env) : bool :=
  if doneInTime (toSeconds (timeout cb)) fn e then
    match held (does fn) with
    | inl _ => true
    | inr _ => false
    end
  else true.

End Breaker.

Arguments task : clear implicits.
Arguments World : clear implicits.
Arguments answer : clear implicits.

End Java.

(** The breaker of the Java tests and of [Main.main], and services like
    those of [createService(600, 2500, ...)]. *)
Definition javaBreaker : Java.CircuitBreaker :=
  Java.new 2 2 (2 * Second) (5 * Second).

Definition javaOk : Java.task string :=
  Java.mkTask (600 * Millisecond) (Java.returns (Some "result is 1")).

Definition javaFailing : Java.task string :=
  Java.mkTask (600 * Millisecond) Java.throws.

Definition javaNull : Java.task string :=
  Java.mkTask (600 * Millisecond) (Java.returns None).

(** [javaBreaker] after two failing calls, open; after the call that
    finds the recovery time over and one successful probe, half-open with
    one success counted. *)
Definition javaTripped : Java.World string :=
  snd (runState
         (Java.callAll
            [(javaFailing, after 0); (javaFailing, after Second)])
         (Java.boot javaBreaker)).

Definition javaProbing : Java.World string :=
  snd (runState
         (Java.callAll
            [(javaFailing, after 0); (javaFailing, after Second);
             (javaOk, after (4 * Second)); (javaOk, after (5 * Second))])
         (Java.boot javaBreaker)).

(** A breaker with a timeout of half a second. *)
Definition javaHasty : Java.CircuitBreaker :=
  Java.new 2 2 (2 * Second) (500 * Millisecond).

(** ** Invariants of the counters *)

(** Java variant: [successCount] below a threshold [hot], and 0 while the
    breaker is closed. *)
Definition javaSuccessCountOk (hot : Z) (cb : Java.CircuitBreaker) : Prop :=
  Java.halfOpenThreshold cb = hot
  /\ 0 <= Java.successCount cb < hot
  /\ (Java.state cb = Java.CLOSED -> Java.successCount cb = 0).

(** The bounds [failureCount] keeps when the threshold is [ft]. *)
Definition failureCountOk (ft : Z) (cb : CircuitBreaker) : Prop :=
  failureThreshold cb = ft
  /\ 0 <= failureCount cb <= Z.max 1 ft
  /\ (state cb = closed -> failureCount cb = 0 \/ failureCount cb < ft).

(** A half-open breaker has had its threshold overwritten. *)
Definition thresholdZeroed (cb : CircuitBreaker) : Prop :=
  state cb = halfOpen -> halfOpenThreshold cb = 0.

(** A breaker whose state field holds none of the three constants, as
    code of the package could leave it. *)
Definition corrupted : World string :=
  boot (mkCircuitBreaker "broken" 0 zeroTime 0 1 Second 1 Second).

(** [NewCircuitBreaker(0, 1, 1*time.Second, 1*time.Second)]: nothing
    checks that the thresholds are positive. *)
Definition zeroThreshold : CircuitBreaker :=
  NewCircuitBreaker 0 1 Second Second.

(** ** [time.Since] and plain subtraction *)

Lemma Since_exact (now t : Time) :
  minDuration <= now - t <= maxDuration -> Since now t = now - t.
Proof.
  intros H. unfold Since, Sub. cbv zeta.
  destruct (Z.ltb_spec (now - t) minDuration); [lia |].
  destruct (Z.ltb_spec maxDuration (now - t)); [lia | reflexivity].
Qed.

(** For a recovery time that is an [int64], a difference within it is
    seen as such ... *)
Lemma Since_within (now t : Time) (r : Duration) :
  minDuration <= r -> now - t <= r -> Since now t <= r.
Proof.
  intros Hr H. unfold Since, Sub. cbv zeta.
  destruct (Z.ltb_spec (now - t) minDuration); [lia |].
  destruct (Z.ltb_spec maxDuration (now - t)); lia.
Qed.

(** ... and so is a difference beyond it, unless the recovery time is the
    largest [Duration] there is. *)
Lemma Since_beyond (now t : Time) (r : Duration) :
  r < maxDuration -> r < now - t -> r < Since now t.
Proof.
  intros Hr H. unfold Since, Sub. cbv zeta.
  destruct (Z.ltb_spec (now - t) minDuration);
    [unfold minDuration, maxDuration in *; lia |].
  destruct (Z.ltb_spec maxDuration (now - t)); lia.
Qed.

(** ** How one call runs *)

Section Handlers.

Context {V : Type}.
Implicit Types (w : World V) (fn : operation V) (e : Env).

Lemma runWithTimeout_run fn e w :
  runState (runWithTimeout fn e) w
  = (raceOutcome (timeout (breaker w)) fn e,
     mkWorld (breaker w) (fn :: invoked w)).
Proof. reflexivity. Qed.

Lemma Call_closed fn e w :
  state (breaker w) = closed ->
  runState (Call fn e) w = runState (processClosedState fn e) w.
Proof. intros H. unfold Call. cbn. rewrite H. reflexivity. Qed.

Lemma Call_open fn e w :
  state (breaker w) = open ->
  runState (Call fn e) w = runState (processOpenState e) w.
Proof. intros H. unfold Call. cbn. rewrite H. reflexivity. Qed.

Lemma Call_halfOpen fn e w :
  state (breaker w) = halfOpen ->
  runState (Call fn e) w = runState (processHalfOpenState fn e) w.
Proof. intros H. unfold Call. cbn. rewrite H. reflexivity. Qed.

Lemma processOpenState_blocked e w :
  Since (now e) (lastFailureTime (breaker w)) <= recoveryTime (breaker w) ->
  runState (processOpenState e) w = ((None, errOpen), w).
Proof.
  intros H. destruct w as [cb log]. unfold processOpenState. cbn in *.
  destruct (Z.ltb_spec (recoveryTime cb) (Since (now e) (lastFailureTime cb)));
    [lia | reflexivity].
Qed.

Lemma processOpenState_recover e w :
  recoveryTime (breaker w) < Since (now e) (lastFailureTime (breaker w)) ->
  runState (processOpenState e) w
  = ((None, None),
     mkWorld
       (set_failureCount 0
          (set_halfOpenThreshold 0 (set_state halfOpen (breaker w))))
       (invoked w)).
Proof.
  intros H. destruct w as [cb log]. unfold processOpenState. cbn in *.
  destruct (Z.ltb_spec (recoveryTime cb) (Since (now e) (lastFailureTime cb)));
    [reflexivity | lia].
Qed.

Lemma processClosedState_ok fn e w :
  snd (raceOutcome (timeout (breaker w)) fn e) = None ->
  runState (processClosedState fn e) w
  = ((fst (raceOutcome (timeout (breaker w)) fn e), None),
     mkWorld (breaker w) (fn :: invoked w)).
Proof.
  intros H. unfold processClosedState. cbn. rewrite H. reflexivity.
Qed.

Lemma processClosedState_fail fn e w msg :
  snd (raceOutcome (timeout (breaker w)) fn e) = Some msg ->
  runState (processClosedState fn e) w
  = ((None, Some msg),
     mkWorld (closedFailure (now e) (breaker w)) (fn :: invoked w)).
Proof.
  intros H. unfold processClosedState, closedFailure. cbn. rewrite H. cbn.
  destruct (failureThreshold (breaker w) <=? GoInt.incr (failureCount (breaker w)));
    reflexivity.
Qed.

Lemma processHalfOpenState_fail fn e w msg :
  snd (raceOutcome (timeout (breaker w)) fn e) = Some msg ->
  runState (processHalfOpenState fn e) w
  = ((None, Some msg),
     mkWorld (set_lastFailureTime (now e) (set_state open (breaker w)))
       (fn :: invoked w)).
Proof.
  intros H. unfold processHalfOpenState. cbn. rewrite H. reflexivity.
Qed.

Lemma processHalfOpenState_ok fn e w :
  snd (raceOutcome (timeout (breaker w)) fn e) = None ->
  runState (processHalfOpenState fn e) w
  = ((fst (raceOutcome (timeout (breaker w)) fn e), None),
     mkWorld (halfOpenSuccess (breaker w)) (fn :: invoked w)).
Proof.
  intros H. unfold processHalfOpenState, halfOpenSuccess. cbn. rewrite H. cbn.
  destruct (halfOpenThreshold (breaker w) <=? GoInt.incr (successCount (breaker w)));
    reflexivity.
Qed.

Lemma raceOutcome_delivered t fn e :
  resultFirst t fn e = true ->
  raceOutcome t fn e = (result fn, failure fn).
Proof. intros H. unfold raceOutcome. rewrite H. reflexivity. Qed.

Lemma raceOutcome_late t fn e :
  t < latency fn -> raceOutcome t fn e = (None, errTimeout).
Proof.
  intros H. unfold raceOutcome, resultFirst.
  destruct (Z.compare_spec (latency fn) t); first [lia | reflexivity].
Qed.

Lemma resultFirst_early t fn e :
  latency fn < t -> resultFirst t fn e = true.
Proof.
  intros H. unfold resultFirst.
  destruct (Z.compare_spec (latency fn) t); first [lia | reflexivity].
Qed.

End Handlers.

(** ** Sequences of calls *)

Section Sequences.

Context {V : Type}.
Implicit Types (w : World V) (fn : operation V) (e : Env).

Lemma Call_run fn e w :
  runState (Call fn e) w
  = match switch (state (breaker w)) with
    | caseClosed => runState (processClosedState fn e) w
    | caseOpen => runState (processOpenState e) w
    | caseHalfOpen => runState (processHalfOpenState fn e) w
    | caseDefault => ((None, errUnknownState (state (breaker w))), w)
    end.
Proof.
  destruct w as [cb log]. unfold Call. cbn.
  destruct (switch (state cb)); reflexivity.
Qed.

Lemma callAll_cons fn e rest w :
  snd (runState (callAll ((fn, e) :: rest)) w)
  = snd (runState (callAll rest) (snd (runState (Call fn e) w))).
Proof.
  change (callAll ((fn, e) :: rest))
    with (r <- Call fn e ;; rs <- callAll rest ;; ret (r :: rs)).
  cbn [bind ret Monad_state runState].
  destruct (runState (Call fn e) w) as [r w1].
  cbn [bind ret Monad_state runState snd].
  destruct (runState (callAll rest) w1) as [rs w2]. reflexivity.
Qed.

Lemma switch_valid s : validState s <-> switch s <> caseDefault.
Proof.
  unfold validState, switch. split.
  - intros [-> | [-> | ->]]; cbn; discriminate.
  - destruct (String.eqb_spec s closed); [auto |].
    destruct (String.eqb_spec s open); [auto |].
    destruct (String.eqb_spec s halfOpen); [auto |].
    intros H. now contradiction H.
Qed.

Lemma fails_spec t fn e :
  fails t fn e = true
  <-> (resultFirst t fn e = true /\ failure fn <> None)
      \/ resultFirst t fn e = false.
Proof.
  unfold fails, raceOutcome.
  destruct (resultFirst t fn e); cbn.
  - destruct (failure fn); split; intros H.
    + left. split; [reflexivity | discriminate].
    + reflexivity.
    + discriminate.
    + destruct H as [[_ H] | H]; [congruence | discriminate].
  - split; auto.
Qed.

Lemma fails_error t fn e :
  fails t fn e = true ->
  exists msg, snd (raceOutcome t fn e) = Some msg.
Proof.
  unfold fails. destruct (snd (raceOutcome t fn e)) as [msg |];
    [eauto | discriminate].
Qed.

Lemma not_fails_ok t fn e :
  fails t fn e = false -> snd (raceOutcome t fn e) = None.
Proof.
  unfold fails. destruct (snd (raceOutcome t fn e)); [discriminate | auto].
Qed.

Lemma incr_small n :
  GoInt.minInt <= n < GoInt.maxInt -> GoInt.incr n = n + 1.
Proof.
  unfold GoInt.incr, GoInt.wrap, GoInt.minInt, GoInt.maxInt. intros H.
  rewrite Z.mod_small; lia.
Qed.

Lemma Call_preserves_valid fn e w :
  validState (state (breaker w)) ->
  validState (state (breaker (snd (runState (Call fn e) w)))).
Proof.
  intros Hv. rewrite Call_run. unfold validState.
  destruct (switch (state (breaker w))).
  - destruct (snd (raceOutcome (timeout (breaker w)) fn e)) as [msg |] eqn:E.
    + rewrite (processClosedState_fail _ _ _ _ E). cbn. unfold closedFailure.
      destruct (_ <=? _); cbn; auto.
    + rewrite (processClosedState_ok _ _ _ E). exact Hv.
  - destruct (Z_lt_le_dec (recoveryTime (breaker w))
                (Since (now e) (lastFailureTime (breaker w)))) as [H | H].
    + rewrite (processOpenState_recover _ _ H). cbn. auto.
    + rewrite (processOpenState_blocked _ _ H). exact Hv.
  - destruct (snd (raceOutcome (timeout (breaker w)) fn e)) as [msg |] eqn:E.
    + rewrite (processHalfOpenState_fail _ _ _ _ E). cbn. auto.
    + rewrite (processHalfOpenState_ok _ _ _ E). cbn. unfold halfOpenSuccess.
      destruct (_ <=? _); cbn; auto.
  - exact Hv.
Qed.

Lemma callAll_preserves_valid calls w :
  validState (state (breaker w)) ->
  validState (state (breaker (snd (runState (callAll calls) w)))).
Proof.
  revert w. induction calls as [| [fn e] rest IH]; intros w Hv.
  - exact Hv.
  - rewrite callAll_cons. apply IH, Call_preserves_valid, Hv.
Qed.

End Sequences.

(** ** The state machine, call by call *)

Section Claims.

Context {V : Type}.
Implicit Types (w : World V) (fn : operation V) (e : Env).

(** C4. A call that finds the breaker open while
    [time.Since(lastFailureTime)] is at most [recoveryTime] returns the
    error "open state; request blocked" and no result, and leaves the whole
    world as it was: state, both counters and the time of the last failure
    are untouched, and no operation has been started. *)
Theorem open_within_recovery_rejects fn e w :
  state (breaker w) = open ->
  Since (now e) (lastFailureTime (breaker w)) <= recoveryTime (breaker w) ->
  runState (Call fn e) w = ((None, errOpen), w).
Proof.
  intros Hs Ht. rewrite (Call_open _ _ _ Hs).
  apply processOpenState_blocked, Ht.
Qed.

(** C5. A call that finds the breaker open once more than [recoveryTime]
    has passed since [lastFailureTime] moves it to half-open, returns nil
    for the result and nil for the error, and starts no operation. *)
Theorem open_after_recovery_probes_next fn e w :
  state (breaker w) = open ->
  recoveryTime (breaker w) < Since (now e) (lastFailureTime (breaker w)) ->
  fst (runState (Call fn e) w) = (None, None)
  /\ state (breaker (snd (runState (Call fn e) w))) = halfOpen
  /\ invoked (snd (runState (Call fn e) w)) = invoked w.
Proof.
  intros Hs Ht. rewrite (Call_open _ _ _ Hs).
  rewrite (processOpenState_recover _ _ Ht). cbn. auto.
Qed.

(** C6. A call in the closed state whose operation delivers its result
    before the deadline, without an error, returns that result and a nil
    error; the breaker is left exactly as it was, so [failureCount] keeps
    its value and the state stays closed. The operation has been run. *)
Theorem closed_success_keeps_failureCount fn e w :
  state (breaker w) = closed ->
  resultFirst (timeout (breaker w)) fn e = true ->
  failure fn = None ->
  fst (runState (Call fn e) w) = (result fn, None)
  /\ breaker (snd (runState (Call fn e) w)) = breaker w
  /\ failureCount (breaker (snd (runState (Call fn e) w)))
     = failureCount (breaker w)
  /\ state (breaker (snd (runState (Call fn e) w))) = closed
  /\ invoked (snd (runState (Call fn e) w)) = fn :: invoked w.
Proof.
  intros Hs Hr Hf. rewrite (Call_closed _ _ _ Hs).
  pose proof (raceOutcome_delivered _ _ _ Hr) as E.
  rewrite processClosedState_ok by (rewrite E; exact Hf).
  rewrite E. cbn. auto.
Qed.

(** C7. A call in the half-open state whose operation fails or runs into
    the deadline puts the breaker back to open, records the clock reading
    as [lastFailureTime], and returns that error with a nil result. *)
Theorem halfOpen_failure_reopens fn e w :
  state (breaker w) = halfOpen ->
  fails (timeout (breaker w)) fn e = true ->
  fst (runState (Call fn e) w)
  = (None, snd (raceOutcome (timeout (breaker w)) fn e))
  /\ snd (raceOutcome (timeout (breaker w)) fn e) <> None
  /\ state (breaker (snd (runState (Call fn e) w))) = open
  /\ lastFailureTime (breaker (snd (runState (Call fn e) w))) = now e.
Proof.
  intros Hs Hf. rewrite (Call_halfOpen _ _ _ Hs).
  destruct (fails_error _ _ _ Hf) as [msg E].
  rewrite (processHalfOpenState_fail _ _ _ _ E), E. cbn.
  repeat split; auto. discriminate.
Qed.

(** C8. When the operation takes longer than the breaker's timeout, a call
    in the closed or the half-open state returns the error "request timed
    out" with a nil result, and it leaves the breaker in the same state as
    a call, at the same clock reading, whose operation returned in time
    with an error of its own. *)
Theorem timeout_counts_as_failure fn fn' e e' w :
  state (breaker w) = closed \/ state (breaker w) = halfOpen ->
  timeout (breaker w) < latency fn ->
  resultFirst (timeout (breaker w)) fn' e' = true ->
  failure fn' <> None ->
  now e' = now e ->
  fst (runState (Call fn e) w) = (None, errTimeout)
  /\ breaker (snd (runState (Call fn e) w))
     = breaker (snd (runState (Call fn' e') w)).
Proof.
  intros Hs Hl Hr Hf Hn.
  pose proof (raceOutcome_late _ _ e Hl) as E.
  pose proof (raceOutcome_delivered _ _ _ Hr) as E'.
  destruct (failure fn') as [msg |] eqn:Ef; [clear Hf | congruence].
  assert (F : snd (raceOutcome (timeout (breaker w)) fn e)
              = Some "request timed out") by (rewrite E; reflexivity).
  assert (F' : snd (raceOutcome (timeout (breaker w)) fn' e') = Some msg)
    by (rewrite E'; reflexivity).
  destruct Hs as [Hs | Hs].
  - rewrite !(Call_closed _ _ _ Hs).
    rewrite (processClosedState_fail _ _ _ _ F).
    rewrite (processClosedState_fail _ _ _ _ F'). cbn. rewrite Hn. auto.
  - rewrite !(Call_halfOpen _ _ _ Hs).
    rewrite (processHalfOpenState_fail _ _ _ _ F).
    rewrite (processHalfOpenState_fail _ _ _ _ F'). cbn. rewrite Hn. auto.
Qed.

(** C9. Whatever calls are made on a breaker built by [NewCircuitBreaker],
    its state afterwards is "closed", "open" or "half-open", so the
    [switch] of the next [Call] does not take its default branch. *)
Theorem reachable_state_is_known
    (failureThreshold halfOpenThreshold : Z) (recoveryTime timeout : Duration)
    (calls : list (operation V * Env)) :
  let cb :=
    NewCircuitBreaker failureThreshold halfOpenThreshold recoveryTime timeout in
  validState (state (breaker (afterCalls cb calls)))
  /\ switch (state (breaker (afterCalls cb calls))) <> caseDefault.
Proof.
  intros cb.
  assert (Hv : validState (state (breaker (afterCalls cb calls)))).
  { unfold afterCalls. apply callAll_preserves_valid. left. reflexivity. }
  split; [exact Hv | apply switch_valid, Hv].
Qed.

(** C10. In every state of the breaker, also an unknown one, and for every
    operation, a call that returns a non-nil error returns a nil result,
    even when the operation returned a value along with its error. *)
Theorem Call_error_without_result fn e w :
  snd (fst (runState (Call fn e) w)) <> None ->
  fst (fst (runState (Call fn e) w)) = None.
Proof.
  rewrite Call_run. destruct (switch (state (breaker w))).
  - destruct (snd (raceOutcome (timeout (breaker w)) fn e)) as [msg |] eqn:E.
    + rewrite (processClosedState_fail _ _ _ _ E). reflexivity.
    + rewrite (processClosedState_ok _ _ _ E). cbn. congruence.
  - destruct (Z_lt_le_dec (recoveryTime (breaker w))
                (Since (now e) (lastFailureTime (breaker w)))) as [H | H].
    + rewrite (processOpenState_recover _ _ H). reflexivity.
    + rewrite (processOpenState_blocked _ _ H). reflexivity.
  - destruct (snd (raceOutcome (timeout (breaker w)) fn e)) as [msg |] eqn:E.
    + rewrite (processHalfOpenState_fail _ _ _ _ E). reflexivity.
    + rewrite (processHalfOpenState_ok _ _ _ E). cbn. congruence.
  - reflexivity.
Qed.

End Claims.

(** ** Failures while closed *)

Section ClosedRuns.

Context {V : Type}.
Implicit Types (w : World V) (fn : operation V) (e : Env).

Lemma failures_nonneg t (calls : list (operation V * Env)) :
  0 <= failures t calls.
Proof. unfold failures. lia. Qed.

Lemma failures_cons t fn e (rest : list (operation V * Env)) :
  failures t ((fn, e) :: rest)
  = (if fails t fn e then 1 else 0) + failures t rest.
Proof.
  unfold failures. cbn [filter fst snd].
  destruct (fails t fn e); cbn [List.length]; lia.
Qed.

(** One failing call in the closed state, below the threshold or at it. *)
Lemma closed_failure_step fn e w :
  state (breaker w) = closed ->
  0 <= failureCount (breaker w) < GoInt.maxInt ->
  fails (timeout (breaker w)) fn e = true ->
  breaker (snd (runState (Call fn e) w))
  = let cb1 :=
      set_lastFailureTime (now e)
        (set_failureCount (failureCount (breaker w) + 1) (breaker w)) in
    if failureThreshold (breaker w) <=? failureCount (breaker w) + 1
    then set_state open cb1 else cb1.
Proof.
  intros Hs Hc Hf. rewrite (Call_closed _ _ _ Hs).
  destruct (fails_error _ _ _ Hf) as [msg E].
  rewrite (processClosedState_fail _ _ _ _ E). cbn. unfold closedFailure.
  rewrite incr_small by (unfold GoInt.minInt; lia). reflexivity.
Qed.

Lemma closed_success_step fn e w :
  state (breaker w) = closed ->
  fails (timeout (breaker w)) fn e = false ->
  breaker (snd (runState (Call fn e) w)) = breaker w.
Proof.
  intros Hs Hf. rewrite (Call_closed _ _ _ Hs).
  rewrite (processClosedState_ok _ _ _ (not_fails_ok _ _ _ Hf)). reflexivity.
Qed.

(** While the failures stay below the threshold the breaker stays closed
    and counts them. *)
Lemma closed_run_below_threshold (calls : list (operation V * Env)) :
  forall w,
    state (breaker w) = closed ->
    0 <= failureCount (breaker w) ->
    failureThreshold (breaker w) <= GoInt.maxInt ->
    failureCount (breaker w) + failures (timeout (breaker w)) calls
      < failureThreshold (breaker w) ->
    let w1 := snd (runState (callAll calls) w) in
    state (breaker w1) = closed
    /\ failureCount (breaker w1)
       = failureCount (breaker w) + failures (timeout (breaker w)) calls
    /\ failureThreshold (breaker w1) = failureThreshold (breaker w)
    /\ timeout (breaker w1) = timeout (breaker w).
Proof.
  induction calls as [| [fn e] rest IH]; intros w Hs Hc Hk Hn.
  - cbn. unfold failures. cbn. repeat split; auto. lia.
  - cbv zeta. rewrite callAll_cons. rewrite failures_cons in Hn |- *.
    pose proof (failures_nonneg (timeout (breaker w)) rest) as Hr.
    destruct (fails (timeout (breaker w)) fn e) eqn:Hf.
    + pose proof (closed_failure_step fn e w Hs ltac:(lia) Hf) as Hb.
      cbv zeta in Hb.
      destruct (Z.leb_spec (failureThreshold (breaker w))
                  (failureCount (breaker w) + 1)); [lia |].
      set (w' := snd (runState (Call fn e) w)) in *.
      assert (IH' := IH w'). rewrite Hb in IH'. cbn -[Z.add] in IH'.
      specialize (IH' ltac:(auto) ltac:(lia) ltac:(auto) ltac:(lia)).
      destruct IH' as (I1 & I2 & I3 & I4). repeat split; auto; lia.
    + pose proof (closed_success_step fn e w Hs Hf) as Hb.
      set (w' := snd (runState (Call fn e) w)) in *.
      assert (IH' := IH w'). rewrite Hb in IH'. cbn -[Z.add] in IH'.
      specialize (IH' ltac:(auto) ltac:(lia) ltac:(auto) ltac:(lia)).
      destruct IH' as (I1 & I2 & I3 & I4). repeat split; auto; lia.
Qed.

(** C3. Take a closed breaker with threshold [k] whose [failureCount] is
    [c] (at least 0), and any calls of which so few fail or time out that
    the count stays below [k]: the breaker is still closed after them, and
    [failureCount] has grown by exactly the number of those failures. The
    next call that fails or times out adds one to [failureCount], stores
    the clock reading in [lastFailureTime], and opens the breaker when the
    count is then [k], and only then. *)
Theorem closed_opens_at_threshold (k c : Z)
    (calls : list (operation V * Env)) fn e w :
  state (breaker w) = closed ->
  failureThreshold (breaker w) = k ->
  failureCount (breaker w) = c ->
  0 <= c ->
  k <= GoInt.maxInt ->
  c + failures (timeout (breaker w)) calls < k ->
  fails (timeout (breaker w)) fn e = true ->
  let n := c + failures (timeout (breaker w)) calls in
  let w1 := snd (runState (callAll calls) w) in
  let w2 := snd (runState (Call fn e) w1) in
  state (breaker w1) = closed
  /\ failureCount (breaker w1) = n
  /\ failureCount (breaker w2) = n + 1
  /\ lastFailureTime (breaker w2) = now e
  /\ state (breaker w2) = (if n + 1 =? k then open else closed).
Proof.
  intros Hs Hk Hc H0 Hmax Hn Hf n w1 w2.
  destruct (closed_run_below_threshold calls w Hs) as (I1 & I2 & I3 & I4);
    try lia.
  fold w1 in I1, I2, I3, I4.
  pose proof (failures_nonneg (timeout (breaker w)) calls) as Hr.
  assert (Hb := closed_failure_step fn e w1 I1).
  rewrite I2, I3, I4 in Hb. specialize (Hb ltac:(lia) Hf). cbv zeta in Hb.
  fold w2 in Hb. subst n. rewrite Hk, Hc in *.
  repeat split; auto; rewrite Hb.
  - destruct (_ <=? _); reflexivity.
  - destruct (_ <=? _); reflexivity.
  - destruct (Z.leb_spec k (c + failures (timeout (breaker w)) calls + 1));
      destruct (Z.eqb_spec (c + failures (timeout (breaker w)) calls + 1) k);
      cbn; auto; lia.
Qed.

End ClosedRuns.

(** ** Entering and leaving the half-open state *)

(** What the successful probe that closes the breaker does, in general:
    [failureCount] is zeroed, [successCount] is only incremented. *)
Lemma halfOpen_closing_call {V : Type} (fn : operation V) e w :
  state (breaker w) = halfOpen ->
  resultFirst (timeout (breaker w)) fn e = true ->
  failure fn = None ->
  halfOpenThreshold (breaker w) <= GoInt.incr (successCount (breaker w)) ->
  runState (Call fn e) w
  = ((result fn, None),
     mkWorld
       (set_state closed
          (set_failureCount 0
             (set_successCount (GoInt.incr (successCount (breaker w)))
                (breaker w))))
       (fn :: invoked w)).
Proof.
  intros Hs Hr Hf Ht. rewrite (Call_halfOpen _ _ _ Hs).
  pose proof (raceOutcome_delivered _ _ _ Hr) as E.
  rewrite processHalfOpenState_ok by (rewrite E; exact Hf).
  rewrite E. unfold halfOpenSuccess.
  destruct (Z.leb_spec (halfOpenThreshold (breaker w))
              (GoInt.incr (successCount (breaker w)))); [reflexivity | lia].
Qed.

(** What the call that leaves the open state does, in general: it zeroes
    [halfOpenThreshold] and [failureCount] and does not touch
    [successCount]. *)
Lemma open_leaving_call {V : Type} (fn : operation V) e w :
  state (breaker w) = open ->
  recoveryTime (breaker w) < Since (now e) (lastFailureTime (breaker w)) ->
  breaker (snd (runState (Call fn e) w))
  = mkCircuitBreaker halfOpen 0 (lastFailureTime (breaker w))
      (successCount (breaker w)) (failureThreshold (breaker w))
      (recoveryTime (breaker w)) 0 (timeout (breaker w)).
Proof.
  intros Hs Ht. rewrite (Call_open _ _ _ Hs).
  rewrite (processOpenState_recover _ _ Ht). reflexivity.
Qed.

(** C1. The code at two inputs. [mainTripped] is open and was built to ask
    for two successes; the call made four seconds into the scenario, past
    the recovery time of two seconds, moves it to half-open with
    [failureCount] 0, and [halfOpenThreshold] is then 0, not 2.
    [relapsed] is open with [successCount] 1 left from its earlier
    recovery; the call that moves it to half-open leaves [successCount]
    at 1, not 0. *)
Theorem halfOpen_entry_overwrites_threshold :
  let w := snd (runState (Call neverFailing (after (4 * Second))) mainTripped) in
  let w' := snd (runState (Call neverFailing (after (10 * Second))) relapsed) in
  (state (breaker mainTripped) = open
   /\ halfOpenThreshold (breaker mainTripped) = 2
   /\ state (breaker w) = halfOpen
   /\ failureCount (breaker w) = 0
   /\ halfOpenThreshold (breaker w) = 0)
  /\ (state (breaker relapsed) = open
      /\ successCount (breaker relapsed) = 1
      /\ state (breaker w') = halfOpen
      /\ successCount (breaker w') = 1).
Proof. vm_compute. repeat split; reflexivity. Qed.

(** C2. The code at two inputs. [probing] is the half-open breaker of
    [TestRecovery]; its next, successful call returns "OK" and closes it
    with [failureCount] 0, and [successCount] is then 1, not 0. The same
    happens on [oneProbeLeft], whose [halfOpenThreshold] is still the
    configured 1: the success takes [successCount] from 0 to 1, the
    breaker closes, and [successCount] stays 1. *)
Theorem closing_keeps_successCount :
  let out := runState (Call neverFailing (after (4 * Second))) probing in
  let out' := runState (Call neverFailing (after Second)) oneProbeLeft in
  (state (breaker probing) = halfOpen
   /\ successCount (breaker probing) = 0
   /\ fst out = (Some "OK", None)
   /\ state (breaker (snd out)) = closed
   /\ failureCount (breaker (snd out)) = 0
   /\ successCount (breaker (snd out)) = 1)
  /\ (halfOpenThreshold (breaker oneProbeLeft) = 1
      /\ fst out' = (Some "OK", None)
      /\ state (breaker (snd out')) = closed
      /\ failureCount (breaker (snd out')) = 0
      /\ successCount (breaker (snd out')) = 1).
Proof. vm_compute. repeat split; reflexivity. Qed.

(** ** The theorems at the inputs of the tests *)

Lemma closed_opens_at_threshold_witness :
  let calls :=
    [(neverFailing, after 0); (alwaysFailing, after Second);
     (neverFailing, after (2 * Second))] in
  let w1 := afterCalls mainBreaker calls in
  let w2 := snd (runState (Call tooSlow (after (3 * Second))) w1) in
  state (breaker w1) = closed
  /\ failureCount (breaker w1) = 1
  /\ failureCount (breaker w2) = 2
  /\ lastFailureTime (breaker w2) = t0 + 3 * Second
  /\ state (breaker w2) = open.
Proof.
  intros calls w1 w2.
  apply (closed_opens_at_threshold 2 0 calls tooSlow (after (3 * Second))
           (boot mainBreaker));
    vm_compute; easy.
Defined.

Lemma open_within_recovery_rejects_witness :
  runState (Call neverFailing (after (500 * Millisecond))) tripped
  = ((None, Some "open state; request blocked"), tripped).
Proof.
  apply (open_within_recovery_rejects neverFailing
           (after (500 * Millisecond)) tripped);
    vm_compute; easy.
Defined.

Lemma open_after_recovery_probes_next_witness :
  fst (runState (Call neverFailing (after (2 * Second))) tripped)
  = (None, None)
  /\ state (breaker (snd (runState (Call neverFailing (after (2 * Second)))
                            tripped))) = halfOpen
  /\ invoked (snd (runState (Call neverFailing (after (2 * Second))) tripped))
     = [alwaysFailing].
Proof.
  apply (open_after_recovery_probes_next neverFailing (after (2 * Second))
           tripped);
    vm_compute; easy.
Defined.

Lemma closed_success_keeps_failureCount_witness :
  let w := afterCalls mainBreaker [(alwaysFailing, after 0)] in
  let out := runState (Call neverFailing (after Second)) w in
  fst out = (Some "OK", None)
  /\ breaker (snd out) = breaker w
  /\ failureCount (breaker (snd out)) = failureCount (breaker w)
  /\ state (breaker (snd out)) = closed
  /\ invoked (snd out) = neverFailing :: invoked w.
Proof.
  intros w out.
  apply (closed_success_keeps_failureCount neverFailing (after Second) w);
    vm_compute; easy.
Defined.

Lemma halfOpen_failure_reopens_witness :
  let out := runState (Call alwaysFailing (after (3 * Second))) probing in
  fst out
  = (None, snd (raceOutcome (timeout (breaker probing)) alwaysFailing
                  (after (3 * Second))))
  /\ snd (raceOutcome (timeout (breaker probing)) alwaysFailing
            (after (3 * Second))) <> None
  /\ state (breaker (snd out)) = open
  /\ lastFailureTime (breaker (snd out)) = now (after (3 * Second)).
Proof.
  intros out.
  apply (halfOpen_failure_reopens alwaysFailing (after (3 * Second)) probing);
    vm_compute; easy.
Defined.

Lemma timeout_counts_as_failure_witness :
  fst (runState (Call tooSlow (after 0)) (boot testBreaker))
  = (None, Some "request timed out")
  /\ breaker (snd (runState (Call tooSlow (after 0)) (boot testBreaker)))
     = breaker (snd (runState (Call alwaysFailing (after 0))
                       (boot testBreaker))).
Proof.
  apply (timeout_counts_as_failure tooSlow alwaysFailing (after 0) (after 0)
           (boot testBreaker));
    vm_compute; try easy. left. reflexivity.
Defined.

Lemma Call_error_without_result_witness :
  snd (fst (runState (Call partialFailure (after 0)) (boot testBreaker)))
  <> None
  /\ fst (fst (runState (Call partialFailure (after 0)) (boot testBreaker)))
     = None.
Proof.
  split; [vm_compute; easy |].
  apply (Call_error_without_result partialFailure (after 0)
           (boot testBreaker)).
  vm_compute. easy.
Defined.

(** ** More on single calls *)

(** Case analysis on one call: the branch of the [switch], then the
    outcome of the handler. *)
Ltac call_cases fn e w :=
  rewrite ?(Call_run fn e w);
  let Hsw := fresh "Hsw" in
  let E := fresh "E" in
  let msg := fresh "msg" in
  destruct (switch (state (breaker w))) eqn:Hsw;
  [ destruct (snd (raceOutcome (timeout (breaker w)) fn e)) as [msg |] eqn:E;
    [ rewrite ?(processClosedState_fail _ _ _ _ E)
    | rewrite ?(processClosedState_ok _ _ _ E) ]
  | destruct (Z_lt_le_dec (recoveryTime (breaker w))
                (Since (now e) (lastFailureTime (breaker w)))) as [E | E];
    [ rewrite ?(processOpenState_recover _ _ E)
    | rewrite ?(processOpenState_blocked _ _ E) ]
  | destruct (snd (raceOutcome (timeout (breaker w)) fn e)) as [msg |] eqn:E;
    [ rewrite ?(processHalfOpenState_fail _ _ _ _ E)
    | rewrite ?(processHalfOpenState_ok _ _ _ E) ]
  | ].

Section Steps.

Context {V : Type}.
Implicit Types (w : World V) (fn : operation V) (e : Env).

Lemma switch_inv s :
  match switch s with
  | caseClosed => s = closed
  | caseOpen => s = open
  | caseHalfOpen => s = halfOpen
  | caseDefault => ~ validState s
  end.
Proof.
  unfold switch, validState.
  destruct (String.eqb_spec s closed); [assumption |].
  destruct (String.eqb_spec s open); [assumption |].
  destruct (String.eqb_spec s halfOpen); [assumption |].
  intros [H | [H | H]]; contradiction.
Qed.

Lemma callAll_cons_run fn e rest w :
  runState (callAll ((fn, e) :: rest)) w
  = (fst (runState (Call fn e) w)
       :: fst (runState (callAll rest) (snd (runState (Call fn e) w))),
     snd (runState (callAll rest) (snd (runState (Call fn e) w)))).
Proof.
  change (callAll ((fn, e) :: rest))
    with (r <- Call fn e ;; rs <- callAll rest ;; ret (r :: rs)).
  cbn [bind ret Monad_state runState].
  destruct (runState (Call fn e) w) as [r w1].
  cbn [bind ret Monad_state runState fst snd].
  destruct (runState (callAll rest) w1) as [rs w2]. reflexivity.
Qed.

Lemma raceOutcome_ok t fn e :
  snd (raceOutcome t fn e) = None ->
  resultFirst t fn e = true /\ failure fn = None
  /\ raceOutcome t fn e = (result fn, None).
Proof.
  unfold raceOutcome. destruct (resultFirst t fn e); cbn.
  - intros ->. auto.
  - discriminate.
Qed.

(** X1. No call ever writes [failureThreshold], [recoveryTime] or
    [timeout]: after any sequence of calls on any breaker they are what
    they were. [halfOpenThreshold] is what it was or 0. *)
Theorem calls_keep_configuration (calls : list (operation V * Env)) w :
  let w' := snd (runState (callAll calls) w) in
  failureThreshold (breaker w') = failureThreshold (breaker w)
  /\ recoveryTime (breaker w') = recoveryTime (breaker w)
  /\ timeout (breaker w') = timeout (breaker w)
  /\ (halfOpenThreshold (breaker w') = halfOpenThreshold (breaker w)
      \/ halfOpenThreshold (breaker w') = 0).
Proof.
  revert w. induction calls as [| [fn e] rest IH]; intros w; cbv zeta.
  - cbn. auto.
  - rewrite callAll_cons.
    destruct (IH (snd (runState (Call fn e) w))) as (I1 & I2 & I3 & I4).
    rewrite I1, I2, I3. clear I1 I2 I3.
    assert (S : failureThreshold (breaker (snd (runState (Call fn e) w)))
                = failureThreshold (breaker w)
                /\ recoveryTime (breaker (snd (runState (Call fn e) w)))
                   = recoveryTime (breaker w)
                /\ timeout (breaker (snd (runState (Call fn e) w)))
                   = timeout (breaker w)
                /\ (halfOpenThreshold (breaker (snd (runState (Call fn e) w)))
                    = halfOpenThreshold (breaker w)
                    \/ halfOpenThreshold (breaker (snd (runState (Call fn e) w)))
                       = 0)).
    { call_cases fn e w; cbn; unfold closedFailure, halfOpenSuccess;
        try destruct (_ <=? _); cbn; auto. }
    destruct S as (S1 & S2 & S3 & S4). repeat split; auto.
    destruct I4 as [I4 | I4]; rewrite I4; auto.
Qed.

(** X2. A call starts the operation exactly when it finds the breaker
    closed or half-open, and then once; in the open state, whatever the
    clock says, and in an unknown state it starts nothing. *)
Theorem Call_starts_operation_once fn e w :
  invoked (snd (runState (Call fn e) w))
  = match switch (state (breaker w)) with
    | caseClosed | caseHalfOpen => fn :: invoked w
    | caseOpen | caseDefault => invoked w
    end.
Proof. call_cases fn e w; reflexivity. Qed.

(** X3. [lastFailureTime] is written only by a call that ran the operation
    and got an error or the timeout, and then it is the clock reading of
    that call; every other call leaves it alone. *)
Theorem lastFailureTime_only_on_failure fn e w :
  lastFailureTime (breaker (snd (runState (Call fn e) w)))
  = match switch (state (breaker w)) with
    | caseClosed | caseHalfOpen =>
        if fails (timeout (breaker w)) fn e then now e
        else lastFailureTime (breaker w)
    | caseOpen | caseDefault => lastFailureTime (breaker w)
    end.
Proof.
  unfold fails.
  call_cases fn e w; rewrite ?E; cbn; unfold closedFailure, halfOpenSuccess;
    try destruct (_ <=? _); reflexivity.
Qed.

(** X4. The moves one call can make: a closed breaker stays closed or
    opens; an open one stays open or becomes half-open; a half-open one
    stays, opens or closes; a breaker in an unknown state keeps it. No
    call takes a closed breaker to half-open or an open one to closed. *)
Theorem Call_transitions fn e w :
  In (state (breaker (snd (runState (Call fn e) w))))
     match switch (state (breaker w)) with
     | caseClosed => [closed; open]
     | caseOpen => [open; halfOpen]
     | caseHalfOpen => [halfOpen; open; closed]
     | caseDefault => [state (breaker w)]
     end.
Proof.
  pose proof (switch_inv (state (breaker w))) as Hi.
  call_cases fn e w; cbn [snd breaker]; unfold closedFailure, halfOpenSuccess;
    try destruct (_ <=? _); cbn [state set_state set_failureCount
      set_lastFailureTime set_successCount set_halfOpenThreshold];
    rewrite ?Hi; cbn; auto.
Qed.

End Steps.

(** ** More on sequences of calls *)

Section Runs.

Context {V : Type}.
Implicit Types (w : World V) (fn : operation V) (e : Env).

Lemma switch_unknown s : ~ validState s -> switch s = caseDefault.
Proof.
  intros H. pose proof (switch_inv s) as Hi.
  destruct (switch s); try reflexivity;
    exfalso; apply H; unfold validState; auto.
Qed.

(** Calls that each leave the world as it is can be made in any number. *)
Lemma callAll_fixed (r : operation V * Env -> any V * error)
    (calls : list (operation V * Env)) w :
  Forall (fun c => runState (Call (fst c) (snd c)) w = (r c, w)) calls ->
  runState (callAll calls) w = (map r calls, w).
Proof.
  intros Hall. induction Hall as [| [fn e] rest Hc Hrest IH].
  - reflexivity.
  - cbn [fst snd] in Hc. rewrite callAll_cons_run, Hc. cbn [fst snd].
    rewrite IH. reflexivity.
Qed.

(** X5. A breaker whose state is none of the three constants is stuck:
    every call of any sequence returns the error "unknown state `s`" and a
    nil result, runs nothing and changes nothing, so the state is never
    repaired. *)
Theorem unknown_state_is_stuck (calls : list (operation V * Env)) w :
  ~ validState (state (breaker w)) ->
  runState (callAll calls) w
  = (map (fun _ => (None, errUnknownState (state (breaker w)))) calls, w).
Proof.
  intros H. apply callAll_fixed, Forall_forall. intros [fn e] _.
  cbn [fst snd]. rewrite Call_run, (switch_unknown _ H). reflexivity.
Qed.

(** X6. On a closed breaker, calls whose operations all succeed in time
    return the operations' results one by one and leave the breaker as it
    was, however many there are. *)
Theorem closed_successes_change_nothing (calls : list (operation V * Env)) :
  forall w,
    state (breaker w) = closed ->
    Forall (fun c => fails (timeout (breaker w)) (fst c) (snd c) = false)
      calls ->
    fst (runState (callAll calls) w)
    = map (fun c => (result (fst c), None)) calls
    /\ breaker (snd (runState (callAll calls) w)) = breaker w.
Proof.
  induction calls as [| [fn e] rest IH]; intros w Hs Hall.
  - split; reflexivity.
  - inversion Hall as [| c l Hf Hrest]; subst. cbn [fst snd] in Hf.
    rewrite callAll_cons_run. cbn [fst snd].
    rewrite (Call_closed _ _ _ Hs).
    pose proof (not_fails_ok _ _ _ Hf) as E.
    rewrite (processClosedState_ok _ _ _ E).
    destruct (raceOutcome_ok _ _ _ E) as (_ & _ & ->). cbn [fst snd].
    destruct (IH (mkWorld (breaker w) (fn :: invoked w)) Hs Hrest)
      as [I1 I2].
    rewrite I1, I2. split; reflexivity.
Qed.

(** X7. On an open breaker, calls that all come within the recovery time
    of the last failure are all rejected with "open state; request
    blocked"; none runs its operation and the breaker does not change, so
    the rejections do not move the end of the waiting time. *)
Theorem open_window_rejects_all (calls : list (operation V * Env)) w :
  state (breaker w) = open ->
  Forall (fun c => Since (now (snd c)) (lastFailureTime (breaker w))
                   <= recoveryTime (breaker w)) calls ->
  runState (callAll calls) w = (map (fun _ => (None, errOpen)) calls, w).
Proof.
  intros Hs Hall. apply callAll_fixed.
  eapply Forall_impl; [| exact Hall]. intros [fn e] Hc. cbn [fst snd] in *.
  rewrite (Call_open _ _ _ Hs). apply processOpenState_blocked, Hc.
Qed.

(** X8. The call that opens a closed breaker starts the waiting time: it
    returns the operation's error, and every later call whose clock
    reading is within the recovery time of that failure is rejected
    without running its operation. *)
Theorem opening_call_blocks_window fn e (calls : list (operation V * Env)) w :
  state (breaker w) = closed ->
  0 <= failureCount (breaker w) < GoInt.maxInt ->
  failureThreshold (breaker w) <= failureCount (breaker w) + 1 ->
  fails (timeout (breaker w)) fn e = true ->
  Forall (fun c => Since (now (snd c)) (now e) <= recoveryTime (breaker w))
    calls ->
  let out := runState (callAll ((fn, e) :: calls)) w in
  fst out
  = (None, snd (raceOutcome (timeout (breaker w)) fn e))
      :: map (fun _ => (None, errOpen)) calls
  /\ state (breaker (snd out)) = open
  /\ invoked (snd out) = fn :: invoked w.
Proof.
  intros Hs Hc Hk Hf Hall. cbv zeta. rewrite callAll_cons_run. cbn [fst snd].
  pose proof (closed_failure_step fn e w Hs Hc Hf) as Hb. cbv zeta in Hb.
  destruct (Z.leb_spec (failureThreshold (breaker w))
              (failureCount (breaker w) + 1)); [| lia].
  assert (Hi : invoked (snd (runState (Call fn e) w)) = fn :: invoked w).
  { rewrite (Call_closed _ _ _ Hs).
    destruct (fails_error _ _ _ Hf) as [msg E].
    rewrite (processClosedState_fail _ _ _ _ E). reflexivity. }
  assert (Hr : fst (runState (Call fn e) w)
               = (None, snd (raceOutcome (timeout (breaker w)) fn e))).
  { rewrite (Call_closed _ _ _ Hs).
    destruct (fails_error _ _ _ Hf) as [msg E].
    rewrite (processClosedState_fail _ _ _ _ E), E. reflexivity. }
  set (w1 := snd (runState (Call fn e) w)) in *.
  rewrite (callAll_fixed (fun _ => (None, errOpen))).
  - cbn [fst snd]. rewrite Hr, Hb, Hi. auto.
  - eapply Forall_impl; [| exact Hall]. intros [fn1 e1] Hc1. cbn [fst snd] in *.
    rewrite Call_open by (rewrite Hb; reflexivity).
    apply processOpenState_blocked. rewrite Hb. exact Hc1.
Qed.

End Runs.

(** ** What holds of every breaker built by [NewCircuitBreaker] *)

Section Reachable.

Context {V : Type}.
Implicit Types (w : World V) (fn : operation V) (e : Env).

Lemma Call_failureCountOk ft fn e w :
  ft <= GoInt.maxInt ->
  failureCountOk ft (breaker w) ->
  failureCountOk ft (breaker (snd (runState (Call fn e) w))).
Proof.
  intros Hmax (Hft & Hb & Hc). unfold failureCountOk.
  pose proof (switch_inv (state (breaker w))) as Hi.
  call_cases fn e w; cbn [snd breaker].
  - (* closed, failure *)
    specialize (Hc Hi). unfold closedFailure.
    rewrite incr_small by (unfold GoInt.minInt, GoInt.maxInt in *; lia).
    rewrite Hft.
    destruct (Z.leb_spec ft (failureCount (breaker w) + 1)); cbn;
      repeat split; auto; try lia; discriminate.
  - auto.
  - (* open, recovery time over *)
    cbn. repeat split; auto; try lia; discriminate.
  - auto.
  - (* half-open, failure *)
    cbn. repeat split; auto; try lia; discriminate.
  - (* half-open, success *)
    unfold halfOpenSuccess. destruct (_ <=? _); cbn;
      repeat split; auto; try lia.
  - auto.
Qed.

Lemma callAll_failureCountOk ft (calls : list (operation V * Env)) :
  ft <= GoInt.maxInt ->
  forall w,
    failureCountOk ft (breaker w) ->
    failureCountOk ft (breaker (snd (runState (callAll calls) w))).
Proof.
  intros Hmax. induction calls as [| [fn e] rest IH]; intros w H.
  - exact H.
  - rewrite callAll_cons. apply IH, Call_failureCountOk; assumption.
Qed.

(** X9. On a breaker built by [NewCircuitBreaker] with a failure threshold
    [ft] (a Go [int]), after any calls [failureCount] lies between 0 and
    the larger of 1 and [ft], so it never wraps around; and while the
    breaker is closed the count is 0 or still below [ft]. *)
Theorem reachable_failureCount_bounds (ft hot : Z) (rt to : Duration)
    (calls : list (operation V * Env)) :
  ft <= GoInt.maxInt ->
  let cb := breaker (afterCalls (NewCircuitBreaker ft hot rt to) calls) in
  0 <= failureCount cb <= Z.max 1 ft
  /\ (state cb = closed -> failureCount cb = 0 \/ failureCount cb < ft).
Proof.
  intros Hmax cb.
  assert (H : failureCountOk ft cb).
  { apply callAll_failureCountOk; [exact Hmax |].
    unfold failureCountOk. cbn. repeat split; auto; lia. }
  destruct H as (_ & H1 & H2). auto.
Qed.

Lemma Call_successCount fn e w :
  0 <= successCount (breaker w) < GoInt.maxInt ->
  successCount (breaker w)
  <= successCount (breaker (snd (runState (Call fn e) w)))
  <= successCount (breaker w) + 1.
Proof.
  intros H.
  call_cases fn e w; cbn [snd breaker]; unfold closedFailure, halfOpenSuccess;
    try destruct (_ <=? _); cbn;
    rewrite ?incr_small by (unfold GoInt.minInt, GoInt.maxInt in *; lia);
    lia.
Qed.

Lemma callAll_successCount (calls : list (operation V * Env)) :
  forall w,
    0 <= successCount (breaker w) ->
    successCount (breaker w) + Z.of_nat (List.length calls) <= GoInt.maxInt ->
    successCount (breaker w)
    <= successCount (breaker (snd (runState (callAll calls) w)))
    <= successCount (breaker w) + Z.of_nat (List.length calls).
Proof.
  induction calls as [| [fn e] rest IH]; intros w H0 Hmax.
  - cbn. lia.
  - rewrite callAll_cons. cbn [List.length] in *.
    pose proof (Call_successCount fn e w ltac:(lia)) as Hs.
    specialize (IH (snd (runState (Call fn e) w)) ltac:(lia) ltac:(lia)).
    lia.
Qed.

(** X10. No call resets [successCount]: as long as the counter cannot
    wrap around, it never goes down over a sequence of calls, whatever
    states the breaker passes through, and it grows by at most one per
    call. *)
Theorem successCount_never_reset (calls : list (operation V * Env)) w :
  0 <= successCount (breaker w) ->
  successCount (breaker w) + Z.of_nat (List.length calls) <= GoInt.maxInt ->
  successCount (breaker w)
  <= successCount (breaker (snd (runState (callAll calls) w)))
  <= successCount (breaker w) + Z.of_nat (List.length calls).
Proof.
  intros H0 Hmax.
  pose proof (callAll_successCount calls w H0 Hmax) as H. lia.
Qed.

Lemma Call_thresholdZeroed fn e w :
  thresholdZeroed (breaker w) ->
  thresholdZeroed (breaker (snd (runState (Call fn e) w))).
Proof.
  unfold thresholdZeroed. intros H.
  pose proof (switch_inv (state (breaker w))) as Hi.
  call_cases fn e w; cbn [snd breaker]; unfold closedFailure, halfOpenSuccess;
    try destruct (_ <=? _); cbn; rewrite ?Hi; auto; try discriminate.
Qed.

Lemma callAll_thresholdZeroed (calls : list (operation V * Env)) :
  forall w,
    thresholdZeroed (breaker w) ->
    thresholdZeroed (breaker (snd (runState (callAll calls) w))).
Proof.
  induction calls as [| [fn e] rest IH]; intros w H.
  - exact H.
  - rewrite callAll_cons. apply IH, Call_thresholdZeroed, H.
Qed.

(** X11. Whenever a breaker built by [NewCircuitBreaker] is half-open, its
    [halfOpenThreshold] is 0, whatever it was built with. *)
Theorem reachable_halfOpen_threshold_zero (ft hot : Z) (rt to : Duration)
    (calls : list (operation V * Env)) :
  state (breaker (afterCalls (NewCircuitBreaker ft hot rt to) calls))
  = halfOpen ->
  halfOpenThreshold (breaker (afterCalls (NewCircuitBreaker ft hot rt to) calls))
  = 0.
Proof.
  apply (callAll_thresholdZeroed calls (boot (NewCircuitBreaker ft hot rt to))).
  unfold thresholdZeroed. cbn. discriminate.
Qed.

(** X12. So on a breaker built by [NewCircuitBreaker], after fewer calls
    than an [int] can count, the first successful call in the half-open
    state closes the breaker and zeroes [failureCount], however many
    successes it was configured to wait for. *)
Theorem reachable_first_probe_closes (ft hot : Z) (rt to : Duration)
    (calls : list (operation V * Env)) fn e :
  let w := afterCalls (NewCircuitBreaker ft hot rt to) calls in
  Z.of_nat (List.length calls) < GoInt.maxInt ->
  state (breaker w) = halfOpen ->
  resultFirst (timeout (breaker w)) fn e = true ->
  failure fn = None ->
  fst (runState (Call fn e) w) = (result fn, None)
  /\ state (breaker (snd (runState (Call fn e) w))) = closed
  /\ failureCount (breaker (snd (runState (Call fn e) w))) = 0.
Proof.
  intros w Hlen Hs Hr Hf.
  assert (Hz : halfOpenThreshold (breaker w) = 0).
  { apply (callAll_thresholdZeroed calls
             (boot (NewCircuitBreaker ft hot rt to))); [| exact Hs].
    unfold thresholdZeroed. cbn. discriminate. }
  pose proof (callAll_successCount calls
                (boot (NewCircuitBreaker ft hot rt to))) as Hc.
  cbn [boot breaker NewCircuitBreaker successCount] in Hc.
  specialize (Hc ltac:(lia) ltac:(lia)).
  change (snd (runState (callAll calls)
                 (boot (NewCircuitBreaker ft hot rt to)))) with w in Hc.
  rewrite (halfOpen_closing_call fn e w Hs Hr Hf).
  - cbn. auto.
  - rewrite Hz, incr_small by (unfold GoInt.minInt, GoInt.maxInt in *; lia).
    lia.
Qed.

End Reachable.

(** ** What a call returns *)

Section Returns.

Context {V : Type}.
Implicit Types (w : World V) (fn : operation V) (e : Env).

(** X13. What [Call] returns, in full. If it ran the operation: the
    operation's result with a nil error when the operation was in time and
    had no error; a nil result with the operation's own error, unchanged,
    when it had one; a nil result with "request timed out" when the
    deadline came first. From the open state: nil and nil, or nil and
    "open state; request blocked". From an unknown state: nil and the
    error naming that state. *)
Theorem Call_returns fn e w :
  fst (runState (Call fn e) w)
  = match switch (state (breaker w)) with
    | caseClosed | caseHalfOpen =>
        if resultFirst (timeout (breaker w)) fn e then
          match failure fn with
          | None => (result fn, None)
          | Some msg => (None, Some msg)
          end
        else (None, errTimeout)
    | caseOpen =>
        if recoveryTime (breaker w)
           <? Since (now e) (lastFailureTime (breaker w))
        then (None, None) else (None, errOpen)
    | caseDefault => (None, errUnknownState (state (breaker w)))
    end.
Proof.
  call_cases fn e w; cbn [fst];
    try (destruct (Z.ltb_spec (recoveryTime (breaker w))
                     (Since (now e) (lastFailureTime (breaker w))));
         first [reflexivity | lia]);
    try reflexivity;
    unfold raceOutcome in *;
    destruct (resultFirst (timeout (breaker w)) fn e); cbn in E |- *;
    try rewrite E; try reflexivity; congruence.
Qed.

(** X14. A call that returns a non-nil result has run the operation, the
    operation answered before the deadline without an error, the result
    is the operation's, and the error returned is nil. *)
Theorem Call_result_is_the_operations fn e w :
  fst (fst (runState (Call fn e) w)) <> None ->
  fst (runState (Call fn e) w) = (result fn, None)
  /\ resultFirst (timeout (breaker w)) fn e = true
  /\ failure fn = None
  /\ invoked (snd (runState (Call fn e) w)) = fn :: invoked w.
Proof.
  call_cases fn e w; cbn [fst snd invoked]; intros H;
    try (exfalso; apply H; reflexivity);
    destruct (raceOutcome_ok _ _ _ E) as (Hr & Hf & Ho);
    rewrite Ho; auto.
Qed.

(** X15. Nothing checks the threshold for being positive: on a new
    breaker with a failure threshold of 1, 0 or less, the first call that
    fails or times out opens the breaker. *)
Theorem low_threshold_opens_at_once (ft hot : Z) (rt to : Duration) fn e :
  ft <= 1 ->
  fails to fn e = true ->
  state (breaker (snd (runState (Call fn e)
                         (boot (NewCircuitBreaker ft hot rt to))))) = open.
Proof.
  intros Hft Hf.
  rewrite (closed_failure_step fn e (boot (NewCircuitBreaker ft hot rt to)));
    try reflexivity; try exact Hf.
  - cbn. destruct (Z.leb_spec ft 1); [reflexivity | lia].
  - cbn. unfold GoInt.maxInt. lia.
Qed.

End Returns.

(** ** The Java variant *)

Section JavaFacts.

Context {R : Type}.
Implicit Types (w : Java.World R) (fn : Java.task R) (e : Env).

Lemma java_call_run fn e w :
  runState (Java.call fn e) w
  = match Java.state (Java.breaker w) with
    | Java.CLOSED => runState (Java.processClosedState fn e) w
    | Java.OPEN => runState (Java.processOpenState e) w
    | Java.HALF_OPEN => runState (Java.processHalfOpenState fn e) w
    end.
Proof.
  destruct w as [cb log]. unfold Java.call. cbn.
  destruct (Java.state cb); reflexivity.
Qed.

Lemma java_callWithTimeout_run fn e w :
  runState (Java.callWithTimeout fn e) w
  = (if Java.doneInTime (Java.toSeconds (Java.timeout (Java.breaker w))) fn e
     then Java.held (Java.does fn) else inl Java.TimeoutException,
     Java.mkWorld (Java.breaker w) (fn :: Java.submitted w)).
Proof. reflexivity. Qed.

Lemma java_throwing_spec fn e w :
  Java.throwing (Java.breaker w) fn e = true ->
  exists x, fst (runState (Java.callWithTimeout fn e) w) = inl x.
Proof.
  rewrite java_callWithTimeout_run. unfold Java.throwing. cbn [fst].
  destruct (Java.doneInTime _ fn e); [| eauto].
  destruct (Java.held (Java.does fn)); [eauto | discriminate].
Qed.

Lemma java_closed_throwing fn e w :
  Java.state (Java.breaker w) = Java.CLOSED ->
  Java.throwing (Java.breaker w) fn e = true ->
  runState (Java.call fn e) w
  = (None,
     Java.mkWorld
       (let cb1 :=
          Java.set_lastFailureTime (now e)
            (Java.set_failureCount
               (Java.incr (Java.failureCount (Java.breaker w)))
               (Java.breaker w)) in
        if Java.failureThreshold (Java.breaker w)
           <=? Java.incr (Java.failureCount (Java.breaker w))
        then Java.set_state Java.OPEN cb1 else cb1)
       (fn :: Java.submitted w)).
Proof.
  intros Hs Ht. rewrite java_call_run, Hs.
  destruct (java_throwing_spec _ _ _ Ht) as [x Hx].
  rewrite java_callWithTimeout_run in Hx. cbn [fst] in Hx.
  unfold Java.processClosedState. cbn. rewrite Hx. cbn.
  destruct (_ <=? _); reflexivity.
Qed.

Lemma java_halfOpen_throwing fn e w :
  Java.state (Java.breaker w) = Java.HALF_OPEN ->
  Java.throwing (Java.breaker w) fn e = true ->
  runState (Java.call fn e) w
  = (None,
     Java.mkWorld
       (Java.set_lastFailureTime (now e)
          (Java.set_state Java.OPEN
             (Java.set_failureCount
                (Java.incr (Java.failureCount (Java.breaker w)))
                (Java.breaker w))))
       (fn :: Java.submitted w)).
Proof.
  intros Hs Ht. rewrite java_call_run, Hs.
  destruct (java_throwing_spec _ _ _ Ht) as [x Hx].
  rewrite java_callWithTimeout_run in Hx. cbn [fst] in Hx.
  unfold Java.processHalfOpenState. cbn. rewrite Hx. reflexivity.
Qed.

Lemma java_whole_seconds (r d : Z) :
  (r / Second <? d / Second) = ((r / Second + 1) * Second <=? d).
Proof.
  assert (Hs : 0 < Second) by (unfold Second; lia).
  destruct (Z.ltb_spec (r / Second) (d / Second));
    destruct (Z.leb_spec ((r / Second + 1) * Second) d); try reflexivity.
  - exfalso.
    assert (d / Second < r / Second + 1) by
      (apply Z.div_lt_upper_bound; lia).
    lia.
  - exfalso.
    assert (r / Second + 1 <= d / Second) by
      (apply Z.div_le_lower_bound; lia).
    lia.
Qed.

Lemma java_open_run fn e w :
  Java.state (Java.breaker w) = Java.OPEN ->
  runState (Java.call fn e) w
  = (None,
     Java.mkWorld
       (if (Java.recoveryTime (Java.breaker w) / Second + 1) * Second
           <=? now e - Java.lastFailureTime (Java.breaker w)
        then Java.set_failureCount 0
               (Java.set_state Java.HALF_OPEN (Java.breaker w))
        else Java.breaker w)
       (Java.submitted w)).
Proof.
  intros Hs. rewrite java_call_run, Hs. destruct w as [cb log].
  unfold Java.processOpenState, Java.getSeconds, Java.between. cbn.
  rewrite java_whole_seconds. destruct (_ <=? _); reflexivity.
Qed.

(** X16. Java variant. A call on an open breaker submits nothing and
    returns the empty [Optional] whether it rejects or not, and the times
    are compared in whole seconds: the breaker becomes half-open (with
    [failureCount] 0) only when the time since the last failure has
    reached the next whole second above the recovery time, and stays open
    before that, also when more than the recovery time has passed. *)
Theorem java_recovery_in_whole_seconds fn e w :
  Java.state (Java.breaker w) = Java.OPEN ->
  let out := runState (Java.call fn e) w in
  let due :=
    (Java.recoveryTime (Java.breaker w) / Second + 1) * Second
    <=? now e - Java.lastFailureTime (Java.breaker w) in
  fst out = None
  /\ Java.submitted (snd out) = Java.submitted w
  /\ Java.state (Java.breaker (snd out))
     = (if due then Java.HALF_OPEN else Java.OPEN)
  /\ Java.failureCount (Java.breaker (snd out))
     = (if due then 0 else Java.failureCount (Java.breaker w))
  /\ Java.successCount (Java.breaker (snd out))
     = Java.successCount (Java.breaker w).
Proof.
  intros Hs. cbv zeta. rewrite (java_open_run _ _ _ Hs). cbn [fst snd].
  destruct (_ <=? _); cbn; auto.
Qed.

(** X17. Java variant. The successful call that brings [successCount] up
    to [halfOpenThreshold] returns the service's answer and resets the
    breaker whole: state [CLOSED], both counters 0, [lastFailureTime] back
    at [Instant.EPOCH], the four configured values as they were. *)
Theorem java_closing_resets_all fn e w (r : R) :
  Java.state (Java.breaker w) = Java.HALF_OPEN ->
  Java.doneInTime (Java.toSeconds (Java.timeout (Java.breaker w))) fn e
  = true ->
  Java.does fn = Java.returns (Some r) ->
  Java.halfOpenThreshold (Java.breaker w)
  <= Java.incr (Java.successCount (Java.breaker w)) ->
  runState (Java.call fn e) w
  = (Some r,
     Java.mkWorld
       (Java.mkCircuitBreaker Java.CLOSED 0 0 Java.EPOCH
          (Java.failureThreshold (Java.breaker w))
          (Java.halfOpenThreshold (Java.breaker w))
          (Java.recoveryTime (Java.breaker w))
          (Java.timeout (Java.breaker w)))
       (fn :: Java.submitted w)).
Proof.
  intros Hs Hd Ha Ht. rewrite java_call_run, Hs.
  unfold Java.processHalfOpenState. cbn. rewrite Hd, Ha. cbn.
  destruct (Z.leb_spec (Java.halfOpenThreshold (Java.breaker w))
              (Java.incr (Java.successCount (Java.breaker w))));
    [reflexivity | lia].
Qed.

(** X18. Java variant. The successes that count towards
    [halfOpenThreshold] need not be consecutive: when a call on a
    half-open breaker fails and the next call comes late enough to leave
    the open state again, the breaker is half-open once more with the
    [successCount] it had before the failure. *)
Theorem java_successes_survive_a_failure fn e fn' e' w :
  Java.state (Java.breaker w) = Java.HALF_OPEN ->
  Java.throwing (Java.breaker w) fn e = true ->
  (Java.recoveryTime (Java.breaker w) / Second + 1) * Second
  <= now e' - now e ->
  let w' := snd (runState (Java.callAll [(fn, e); (fn', e')]) w) in
  Java.state (Java.breaker w') = Java.HALF_OPEN
  /\ Java.successCount (Java.breaker w') = Java.successCount (Java.breaker w)
  /\ Java.failureCount (Java.breaker w') = 0.
Proof.
  intros Hs Ht Hd. cbv zeta.
  change (Java.callAll [(fn, e); (fn', e')])
    with (r <- Java.call fn e ;;
          rs <- (r' <- Java.call fn' e' ;; rs' <- ret [] ;; ret (r' :: rs')) ;;
          ret (r :: rs)).
  cbn [bind ret Monad_state runState].
  rewrite (java_halfOpen_throwing _ _ _ Hs Ht).
  cbn [bind ret Monad_state runState].
  rewrite java_open_run by reflexivity. cbn [Java.breaker Java.recoveryTime
    Java.lastFailureTime Java.set_lastFailureTime Java.set_state
    Java.set_failureCount].
  destruct (Z.leb_spec
              ((Java.recoveryTime (Java.breaker w) / Second + 1) * Second)
              (now e' - now e)); [| lia].
  cbn. auto.
Qed.

(** X19. Java variant. A service that returns [null] is treated as one
    that throws: in every state the call returns the same [Optional] and
    leaves the same breaker. *)
Theorem java_null_is_a_failure (l : Duration) e w :
  fst (runState (Java.call (Java.mkTask l (Java.returns None)) e) w)
  = fst (runState (Java.call (Java.mkTask l Java.throws) e) w)
  /\ Java.breaker
       (snd (runState (Java.call (Java.mkTask l (Java.returns None)) e) w))
     = Java.breaker
         (snd (runState (Java.call (Java.mkTask l Java.throws) e) w)).
Proof.
  rewrite !java_call_run. destruct (Java.state (Java.breaker w)).
  - unfold Java.processClosedState. cbn.
    destruct (Java.doneInTime _ _ e) eqn:D1; cbn;
      unfold Java.doneInTime in *; cbn in *; rewrite ?D1; cbn;
      destruct (_ <=? _); auto.
  - auto.
  - unfold Java.processHalfOpenState. cbn.
    destruct (Java.doneInTime _ _ e) eqn:D1; cbn;
      unfold Java.doneInTime in *; cbn in *; rewrite ?D1; cbn; auto.
Qed.

(** X20. Java variant. A call that returns a present [Optional] has
    submitted the task, the task was done within the timeout's whole
    seconds, and the value is the non-null answer of the service. *)
Theorem java_present_is_the_answer fn e w (r : R) :
  fst (runState (Java.call fn e) w) = Some r ->
  Java.does fn = Java.returns (Some r)
  /\ Java.doneInTime (Java.toSeconds (Java.timeout (Java.breaker w))) fn e
     = true
  /\ Java.submitted (snd (runState (Java.call fn e) w))
     = fn :: Java.submitted w.
Proof.
  rewrite java_call_run. destruct (Java.state (Java.breaker w)).
  - unfold Java.processClosedState. cbn.
    destruct (Java.doneInTime _ fn e); cbn;
      [destruct (Java.does fn) as [[v |] |]; cbn |];
      try (destruct (_ <=? _); cbn; discriminate).
    intros H. inversion H. auto.
  - unfold Java.processOpenState. cbn. destruct (_ <? _); cbn; discriminate.
  - unfold Java.processHalfOpenState. cbn.
    destruct (Java.doneInTime _ fn e); cbn;
      [destruct (Java.does fn) as [[v |] |]; cbn |]; try discriminate.
    destruct (_ <=? _); cbn; intros H; inversion H; auto.
Qed.

(** X21. Java variant. The timeout is cut down to whole seconds, so with a
    timeout of less than a second the executor is given no time at all:
    on a closed breaker every call whose task takes any time returns the
    empty [Optional] and counts as a failure. *)
Theorem java_short_timeout_is_zero fn e w :
  Java.state (Java.breaker w) = Java.CLOSED ->
  0 <= Java.timeout (Java.breaker w) < Second ->
  0 < Java.latency fn ->
  let out := runState (Java.call fn e) w in
  fst out = None
  /\ Java.failureCount (Java.breaker (snd out))
     = Java.incr (Java.failureCount (Java.breaker w))
  /\ Java.lastFailureTime (Java.breaker (snd out)) = now e.
Proof.
  intros Hs Ht Hl. cbv zeta.
  assert (Hz : Java.toSeconds (Java.timeout (Java.breaker w)) = 0).
  { unfold Java.toSeconds. apply Z.div_small. exact Ht. }
  assert (Hth : Java.throwing (Java.breaker w) fn e = true).
  { unfold Java.throwing, Java.doneInTime. rewrite Hz. cbn.
    destruct (Z.compare_spec (Java.latency fn) 0); first [lia | reflexivity]. }
  rewrite (java_closed_throwing _ _ _ Hs Hth). cbn [fst snd Java.breaker].
  destruct (_ <=? _); cbn; auto.
Qed.

End JavaFacts.

Section JavaReachable.

Context {R : Type}.
Implicit Types (w : Java.World R) (fn : Java.task R) (e : Env).

Lemma java_incr_small n :
  Java.minInt <= n < Java.maxInt -> Java.incr n = n + 1.
Proof.
  unfold Java.incr, Java.wrap, Java.minInt, Java.maxInt. intros H.
  rewrite Z.mod_small; lia.
Qed.

Lemma java_callAll_cons fn e rest w :
  snd (runState (Java.callAll ((fn, e) :: rest)) w)
  = snd (runState (Java.callAll rest) (snd (runState (Java.call fn e) w))).
Proof.
  change (Java.callAll ((fn, e) :: rest))
    with (r <- Java.call fn e ;; rs <- Java.callAll rest ;; ret (r :: rs)).
  cbn [bind ret Monad_state runState].
  destruct (runState (Java.call fn e) w) as [r w1].
  cbn [bind ret Monad_state runState snd].
  destruct (runState (Java.callAll rest) w1) as [rs w2]. reflexivity.
Qed.

Lemma java_call_successCountOk hot fn e w :
  hot <= Java.maxInt ->
  javaSuccessCountOk hot (Java.breaker w) ->
  javaSuccessCountOk hot (Java.breaker (snd (runState (Java.call fn e) w))).
Proof.
  intros Hmax (Hh & Hb & Hc). unfold javaSuccessCountOk.
  rewrite java_call_run.
  pose (s := Java.state (Java.breaker w)).
  assert (Hs : Java.state (Java.breaker w) = s) by reflexivity.
  rewrite Hs. destruct s.
  - unfold Java.processClosedState. cbn.
    destruct (Java.doneInTime _ fn e); cbn;
      [destruct (Java.held (Java.does fn)); cbn |];
      try destruct (_ <=? _); cbn; repeat split; auto; try lia;
      discriminate.
  - unfold Java.processOpenState. cbn.
    destruct (_ <? _); cbn; repeat split; auto; try lia; try discriminate.
  - unfold Java.processHalfOpenState. cbn.
    destruct (Java.doneInTime _ fn e); cbn;
      [destruct (Java.held (Java.does fn)); cbn |];
      try (repeat split; auto; try lia; discriminate).
    rewrite java_incr_small by (unfold Java.minInt, Java.maxInt in *; lia).
    rewrite Hh.
    destruct (Z.leb_spec hot (Java.successCount (Java.breaker w) + 1)); cbn;
      repeat split; auto; try lia.
    rewrite Hs. discriminate.
Qed.

(** X22. Java variant. On a breaker built by the constructor with a
    [halfOpenThreshold] of at least 1, after any calls [successCount] is
    at least 0 and below the threshold, and it is 0 whenever the breaker
    is closed. *)
Theorem java_successCount_below_threshold (ft hot : Z) (rt to : Duration)
    (calls : list (Java.task R * Env)) :
  1 <= hot <= Java.maxInt ->
  let cb :=
    Java.breaker
      (snd (runState (Java.callAll calls) (Java.boot (Java.new ft hot rt to))))
  in
  0 <= Java.successCount cb < hot
  /\ (Java.state cb = Java.CLOSED -> Java.successCount cb = 0).
Proof.
  intros Hhot.
  assert (H : forall w,
             javaSuccessCountOk hot (Java.breaker w) ->
             javaSuccessCountOk hot
               (Java.breaker (snd (runState (Java.callAll calls) w)))).
  { induction calls as [| [fn e] rest IH]; intros w Hw.
    - exact Hw.
    - rewrite java_callAll_cons.
      apply IH, java_call_successCountOk; [lia | exact Hw]. }
  cbv zeta.
  destruct (H (Java.boot (Java.new ft hot rt to))) as (_ & H1 & H2).
  - unfold javaSuccessCountOk. cbn. repeat split; auto; lia.
  - auto.
Qed.

End JavaReachable.

(** ** The further theorems at the inputs of the tests *)

Lemma unknown_state_is_stuck_witness :
  runState
    (callAll [(neverFailing, after 0); (alwaysFailing, after Second)])
    corrupted
  = ([(None, Some "unknown state `broken`");
      (None, Some "unknown state `broken`")], corrupted).
Proof.
  apply (unknown_state_is_stuck
           [(neverFailing, after 0); (alwaysFailing, after Second)] corrupted).
  unfold validState. vm_compute. intros [H | [H | H]]; discriminate H.
Defined.

Lemma closed_successes_change_nothing_witness :
  let w := afterCalls mainBreaker [(alwaysFailing, after 0)] in
  let calls :=
    [(neverFailing, after Second); (neverFailing, after (2 * Second))] in
  fst (runState (callAll calls) w) = [(Some "OK", None); (Some "OK", None)]
  /\ breaker (snd (runState (callAll calls) w)) = breaker w.
Proof.
  intros w calls.
  apply (closed_successes_change_nothing calls w); [reflexivity |].
  repeat constructor.
Defined.

Lemma open_window_rejects_all_witness :
  runState
    (callAll [(neverFailing, after (500 * Millisecond));
              (neverFailing, after Second)])
    tripped
  = ([(None, Some "open state; request blocked");
      (None, Some "open state; request blocked")], tripped).
Proof.
  apply (open_window_rejects_all
           [(neverFailing, after (500 * Millisecond));
            (neverFailing, after Second)] tripped); [reflexivity |].
  repeat constructor; vm_compute; discriminate.
Defined.

Lemma opening_call_blocks_window_witness :
  let out :=
    runState
      (callAll [(alwaysFailing, after 0);
                (neverFailing, after (500 * Millisecond))])
      (boot testBreaker) in
  fst out
  = [(None, Some "service failed");
     (None, Some "open state; request blocked")]
  /\ state (breaker (snd out)) = open
  /\ invoked (snd out) = [alwaysFailing].
Proof.
  intros out.
  assert (H1 : state (breaker (@boot string testBreaker)) = closed) by reflexivity.
  assert (H2 : 0 <= failureCount (breaker (@boot string testBreaker)) < GoInt.maxInt)
    by (vm_compute; easy).
  assert (H3 : failureThreshold (breaker (@boot string testBreaker))
               <= failureCount (breaker (@boot string testBreaker)) + 1)
    by (vm_compute; easy).
  assert (H4 : fails (timeout (breaker (@boot string testBreaker))) alwaysFailing
                 (after 0) = true) by (vm_compute; reflexivity).
  assert (H5 : Forall
                 (fun c => Since (now (snd c)) (now (after 0))
                           <= recoveryTime (breaker (@boot string testBreaker)))
                 [(neverFailing, after (500 * Millisecond))])
    by (repeat constructor; vm_compute; discriminate).
  vm_cast_no_check
    (opening_call_blocks_window alwaysFailing (after 0)
       [(neverFailing, after (500 * Millisecond))] (@boot string testBreaker)
       H1 H2 H3 H4 H5).
Defined.

Lemma reachable_failureCount_bounds_witness :
  let cb :=
    breaker
      (afterCalls (NewCircuitBreaker 2 2 (2 * Second) (2 * Second))
         [(alwaysFailing, after 0); (neverFailing, after Second)]) in
  0 <= failureCount cb <= Z.max 1 2
  /\ (state cb = closed -> failureCount cb = 0 \/ failureCount cb < 2).
Proof.
  apply (reachable_failureCount_bounds 2 2 (2 * Second) (2 * Second)
           [(alwaysFailing, after 0); (neverFailing, after Second)]).
  vm_compute. discriminate.
Defined.

Lemma successCount_never_reset_witness :
  let calls :=
    [(neverFailing, after (3 * Second)); (alwaysFailing, after (4 * Second));
     (neverFailing, after (6 * Second))] in
  successCount (breaker probing)
  <= successCount (breaker (snd (runState (callAll calls) probing)))
  <= successCount (breaker probing) + 3.
Proof.
  apply (successCount_never_reset
           [(neverFailing, after (3 * Second));
            (alwaysFailing, after (4 * Second));
            (neverFailing, after (6 * Second))] probing);
    vm_compute; discriminate.
Defined.

Lemma reachable_halfOpen_threshold_zero_witness :
  halfOpenThreshold
    (breaker
       (afterCalls (NewCircuitBreaker 2 2 (2 * Second) (2 * Second))
          [(alwaysFailing, after 0); (alwaysFailing, after Second);
           (neverFailing, after (4 * Second))]))
  = 0.
Proof.
  apply (reachable_halfOpen_threshold_zero 2 2 (2 * Second) (2 * Second)
           [(alwaysFailing, after 0); (alwaysFailing, after Second);
            (neverFailing, after (4 * Second))]).
  reflexivity.
Defined.

Lemma reachable_first_probe_closes_witness :
  let w :=
    afterCalls (NewCircuitBreaker 2 2 (2 * Second) (2 * Second))
      [(alwaysFailing, after 0); (alwaysFailing, after Second);
       (neverFailing, after (4 * Second))] in
  let out := runState (Call neverFailing (after (5 * Second))) w in
  fst out = (Some "OK", None)
  /\ state (breaker (snd out)) = closed
  /\ failureCount (breaker (snd out)) = 0.
Proof.
  apply (reachable_first_probe_closes 2 2 (2 * Second) (2 * Second)
           [(alwaysFailing, after 0); (alwaysFailing, after Second);
            (neverFailing, after (4 * Second))]
           neverFailing (after (5 * Second)));
    vm_compute; easy.
Defined.

Lemma Call_result_is_the_operations_witness :
  let out := runState (Call neverFailing (after 0)) (boot testBreaker) in
  fst out = (Some "OK", None)
  /\ resultFirst (timeout testBreaker) neverFailing (after 0) = true
  /\ failure neverFailing = None
  /\ invoked (snd out) = [neverFailing].
Proof.
  apply (Call_result_is_the_operations neverFailing (after 0)
           (boot testBreaker)).
  vm_compute. discriminate.
Defined.

Lemma low_threshold_opens_at_once_witness :
  state (breaker (snd (runState (Call alwaysFailing (after 0))
                         (boot zeroThreshold)))) = open.
Proof.
  apply (low_threshold_opens_at_once 0 1 Second Second alwaysFailing (after 0));
    vm_compute; easy.
Defined.

Lemma java_recovery_in_whole_seconds_witness :
  let out :=
    runState (Java.call javaOk (after (3900 * Millisecond))) javaTripped in
  fst out = None
  /\ Java.submitted (snd out) = Java.submitted javaTripped
  /\ Java.state (Java.breaker (snd out)) = Java.OPEN
  /\ Java.failureCount (Java.breaker (snd out)) = 2
  /\ Java.successCount (Java.breaker (snd out)) = 0.
Proof.
  apply (java_recovery_in_whole_seconds javaOk (after (3900 * Millisecond))
           javaTripped).
  reflexivity.
Defined.

Lemma java_closing_resets_all_witness :
  runState (Java.call javaOk (after (6 * Second))) javaProbing
  = (Some "result is 1",
     Java.mkWorld
       (Java.mkCircuitBreaker Java.CLOSED 0 0 Java.EPOCH 2 2
          (2 * Second) (5 * Second))
       (javaOk :: Java.submitted javaProbing)).
Proof.
  apply (java_closing_resets_all javaOk (after (6 * Second)) javaProbing
           "result is 1"%string);
    vm_compute; easy.
Defined.

Lemma java_successes_survive_a_failure_witness :
  let w' :=
    snd (runState
           (Java.callAll [(javaFailing, after (6 * Second));
                          (javaOk, after (9 * Second))])
           javaProbing) in
  Java.state (Java.breaker w') = Java.HALF_OPEN
  /\ Java.successCount (Java.breaker w') = 1
  /\ Java.failureCount (Java.breaker w') = 0.
Proof.
  apply (java_successes_survive_a_failure javaFailing (after (6 * Second))
           javaOk (after (9 * Second)) javaProbing);
    vm_compute; easy.
Defined.

Lemma java_present_is_the_answer_witness :
  Java.does javaOk = Java.returns (Some "result is 1"%string)
  /\ Java.doneInTime (Java.toSeconds (Java.timeout javaBreaker)) javaOk
       (after 0) = true
  /\ Java.submitted
       (snd (runState (Java.call javaOk (after 0)) (Java.boot javaBreaker)))
     = [javaOk].
Proof.
  apply (java_present_is_the_answer javaOk (after 0) (Java.boot javaBreaker)
           "result is 1"%string).
  reflexivity.
Defined.

Lemma java_short_timeout_is_zero_witness :
  let out := runState (Java.call javaOk (after 0)) (Java.boot javaHasty) in
  fst out = None
  /\ Java.failureCount (Java.breaker (snd out)) = 1
  /\ Java.lastFailureTime (Java.breaker (snd out)) = t0 + 0.
Proof.
  apply (java_short_timeout_is_zero javaOk (after 0) (Java.boot javaHasty));
    vm_compute; easy.
Defined.

Lemma java_successCount_below_threshold_witness :
  let cb :=
    Java.breaker
      (snd (runState
              (Java.callAll
                 [(javaFailing, after 0); (javaFailing, after Second);
                  (javaOk, after (4 * Second)); (javaOk, after (5 * Second))])
              (Java.boot (Java.new 2 2 (2 * Second) (5 * Second))))) in
  0 <= Java.successCount cb < 2
  /\ (Java.state cb = Java.CLOSED -> Java.successCount cb = 0).
Proof.
  apply (java_successCount_below_threshold 2 2 (2 * Second) (5 * Second)
           [(javaFailing, after 0); (javaFailing, after Second);
            (javaOk, after (4 * Second)); (javaOk, after (5 * Second))]).
  vm_compute. split; discriminate.
Defined.
